(** * anthropic-proxy: the relay handler of [.proxy/anthropic-proxy.py]

    A shallow embedding of [AnthropicProxyHandler] (the header rewriting, the
    upstream exchange, the response relay and the error translation) and the
    properties of the relay stated in the design document. *)

From Stdlib Require Import String Ascii List ZArith Lia Bool Arith.
From Stdlib Require Import DecimalString.
From Stdlib Require DecimalNat DecimalFacts.
From Equations Require Import Equations.
From Equations.Prop Require Import Logic.
Import ListNotations.
Local Open Scope string_scope.
Local Open Scope list_scope.

(** ** Python values used by the handler *)

Module Py.

(** [str.lower()].  Header names and values reach the handler decoded as
    latin-1; on such strings the comparisons made by the handler (against
    ASCII literals) only depend on the ASCII letters. *)
Definition lower_ascii (c : ascii) : ascii :=
  let n := nat_of_ascii c in
  if Nat.leb 65 n && Nat.leb n 90 then ascii_of_nat (n + 32) else c.

Fixpoint lower (s : string) : string :=
  match s with
  | EmptyString => EmptyString
  | String c s' => String (lower_ascii c) (lower s')
  end.

(** [prefix p s]: [s.startswith(p)]. *)
Fixpoint prefix (p s : string) : bool :=
  match p, s with
  | EmptyString, _ => true
  | String a p', String b s' => Ascii.eqb a b && prefix p' s'
  | String _ _, EmptyString => false
  end.

(** [sub in s] on strings. *)
Fixpoint contains (sub s : string) : bool :=
  prefix sub s ||
  match s with
  | EmptyString => false
  | String _ s' => contains sub s'
  end.

(** Truthiness of a [str] and of an [Optional[str]]. *)
Definition truthy (s : string) : bool := negb (s =? EmptyString).

Definition truthy_opt (o : option string) : bool :=
  match o with
  | Some s => truthy s
  | None => false
  end.

(** [str(n)] for a non-negative [int]. *)
Definition str_of_nat (n : nat) : string :=
  NilZero.string_of_uint (Nat.to_uint n).

(** *** [repr] of a [str] and of a [bytes] object

    The quote is the single one, unless the text holds a single and no
    double quote; the quote and the backslash are escaped, so are tab, line
    feed and carriage return; what is not printable is written [\xhh]. *)
Definition BACKSLASH : ascii := ascii_of_nat 92.
Definition SQUOTE : ascii := ascii_of_nat 39.
Definition DQUOTE_CHAR : ascii := ascii_of_nat 34.

Definition hex_digit (n : nat) : ascii :=
  ascii_of_nat (if Nat.ltb n 10 then 48 + n else 87 + n).

Definition hex_escape (c : ascii) : string :=
  let n := nat_of_ascii c in
  String BACKSLASH
    (String "x"
       (String (hex_digit (Nat.div n 16))
          (String (hex_digit (Nat.modulo n 16)) EmptyString))).

Fixpoint has_char (c : ascii) (s : string) : bool :=
  match s with
  | EmptyString => false
  | String a s' => Ascii.eqb a c || has_char c s'
  end.

Definition quote_for (s : string) : ascii :=
  if has_char SQUOTE s && negb (has_char DQUOTE_CHAR s)
  then DQUOTE_CHAR else SQUOTE.

(** Printable characters of a [bytes] object and of a [str] within
    latin-1. *)
Definition printable_byte (c : ascii) : bool :=
  let n := nat_of_ascii c in Nat.leb 32 n && Nat.ltb n 127.

Definition printable_char (c : ascii) : bool :=
  let n := nat_of_ascii c in
  (Nat.leb 32 n && Nat.ltb n 127) || (Nat.leb 161 n && negb (Nat.eqb n 173)).

Definition escape_char (printable : ascii -> bool) (quote c : ascii)
  : string :=
  if Ascii.eqb c quote || Ascii.eqb c BACKSLASH
  then String BACKSLASH (String c EmptyString)
  else if Nat.eqb (nat_of_ascii c) 9 then String BACKSLASH "t"
  else if Nat.eqb (nat_of_ascii c) 10 then String BACKSLASH "n"
  else if Nat.eqb (nat_of_ascii c) 13 then String BACKSLASH "r"
  else if printable c then String c EmptyString
  else hex_escape c.

Fixpoint escape (printable : ascii -> bool) (quote : ascii) (s : string)
  : string :=
  match s with
  | EmptyString => EmptyString
  | String c s' => escape_char printable quote c ++ escape printable quote s'
  end.

Definition str_repr (s : string) : string :=
  let q := quote_for s in
  String q (escape printable_char q s ++ String q EmptyString).

Definition bytes_repr (s : string) : string :=
  let q := quote_for s in
  String "b" (String q (escape printable_byte q s ++ String q EmptyString)).

(** *** [int(s)] on a header value (CPython 3.11)

    Whitespace around the literal is skipped, one sign is allowed, and the
    digits may be separated by single underscores; a literal of more than
    4300 digits is refused.  The result is the number, or the text of the
    [ValueError]. *)
Definition is_space (c : ascii) : bool :=
  let n := nat_of_ascii c in
  (Nat.leb 9 n && Nat.leb n 13) || Nat.eqb n 32
  || Nat.eqb n 133 || Nat.eqb n 160.

Definition digit_of (c : ascii) : option Z :=
  let n := nat_of_ascii c in
  if Nat.leb 48 n && Nat.leb n 57 then Some (Z.of_nat (n - 48)) else None.

Fixpoint lstrip (s : string) : string :=
  match s with
  | String c s' => if is_space c then lstrip s' else s
  | EmptyString => EmptyString
  end.

(** [scan acc count after_underscore s]: the longest run of digits and
    underscores at the head of [s]: its value read onto [acc], the number
    of its digits added to [count], and what follows it; [None] when two
    underscores meet or the run ends in one. *)
Fixpoint scan (acc : Z) (count : nat) (after_underscore : bool) (s : string)
  : option (Z * nat * string) :=
  match s with
  | EmptyString => if after_underscore then None else Some (acc, count, s)
  | String c s' =>
      match digit_of c with
      | Some d => scan (10 * acc + d)%Z (S count) false s'
      | None =>
          if Ascii.eqb c "_" then
            if after_underscore then None else scan acc count true s'
          else if after_underscore then None else Some (acc, count, s)
      end
  end.

Definition INT_MAX_STR_DIGITS : nat := 4300.

Definition invalid_literal (s : string) : string :=
  "invalid literal for int() with base 10: " ++ substring 0 200 (str_repr s).

Definition too_many_digits (count : nat) : string :=
  "Exceeds the limit (" ++ str_of_nat INT_MAX_STR_DIGITS
  ++ " digits) for integer string conversion: value has " ++ str_of_nat count
  ++ " digits; use sys.set_int_max_str_digits() to increase the limit".

(** The literal after the sign. *)
Definition unsigned_int (s literal : string) : Z + string :=
  match literal with
  | String "_" _ => inr (invalid_literal s)
  | _ =>
      match scan 0 0 false literal with
      | None => inr (invalid_literal s)
      | Some (value, count, rest) =>
          if Nat.ltb INT_MAX_STR_DIGITS count then inr (too_many_digits count)
          else if Nat.eqb count 0 then inr (invalid_literal s)
          else if lstrip rest =? EmptyString then inl value
          else inr (invalid_literal s)
      end
  end.

Definition int (s : string) : Z + string :=
  match lstrip s with
  | String "-" literal =>
      match unsigned_int s literal with
      | inl value => inl (- value)%Z
      | inr message => inr message
      end
  | String "+" literal => unsigned_int s literal
  | literal => unsigned_int s literal
  end.

(** *** [dict] with [str] keys: insertion-ordered, one entry per key;
    assigning to a key that is present keeps its place. *)
Definition dict := list (string * string).

Fixpoint dict_set (d : dict) (k v : string) : dict :=
  match d with
  | [] => [(k, v)]
  | (k', v') :: d' =>
      if k' =? k then (k', v) :: d' else (k', v') :: dict_set d' k v
  end.

Fixpoint dict_get (d : dict) (k : string) : option string :=
  match d with
  | [] => None
  | (k', v') :: d' => if k' =? k then Some v' else dict_get d' k
  end.

(** [dict(items)]: later items win. *)
Definition dict_of_items (items : list (string * string)) : dict :=
  fold_left (fun d kv => dict_set d (fst kv) (snd kv)) items [].

End Py.

(** ** Exceptions

    The classes that the calls of the handler raise, with the bases they have
    in CPython (3.10 and later, where [socket.timeout] is [TimeoutError]). *)

Inductive py_class : Type :=
| BaseException | KeyboardInterrupt
| Exception | ValueError | UnicodeEncodeError | OverflowError
| OSError | ConnectionError | ConnectionRefusedError | ConnectionResetError
| BrokenPipeError | TimeoutError | gaierror
| SSLError | SSLCertVerificationError
| HTTPException | BadStatusLine | RemoteDisconnected | IncompleteRead.

Definition py_class_eqb (a b : py_class) : bool :=
  match a, b with
  | BaseException, BaseException | KeyboardInterrupt, KeyboardInterrupt
  | Exception, Exception | ValueError, ValueError
  | UnicodeEncodeError, UnicodeEncodeError
  | OverflowError, OverflowError
  | OSError, OSError | ConnectionError, ConnectionError
  | ConnectionRefusedError, ConnectionRefusedError
  | ConnectionResetError, ConnectionResetError
  | BrokenPipeError, BrokenPipeError | TimeoutError, TimeoutError
  | gaierror, gaierror | SSLError, SSLError
  | SSLCertVerificationError, SSLCertVerificationError
  | HTTPException, HTTPException | BadStatusLine, BadStatusLine
  | RemoteDisconnected, RemoteDisconnected
  | IncompleteRead, IncompleteRead => true
  | _, _ => false
  end.

(** The class itself followed by its ancestors among the classes above, in
    method resolution order. *)
Definition mro (c : py_class) : list py_class :=
  match c with
  | BaseException => [BaseException]
  | KeyboardInterrupt => [KeyboardInterrupt; BaseException]
  | Exception => [Exception; BaseException]
  | ValueError => [ValueError; Exception; BaseException]
  | UnicodeEncodeError =>
      [UnicodeEncodeError; ValueError; Exception; BaseException]
  | OverflowError => [OverflowError; Exception; BaseException]
  | OSError => [OSError; Exception; BaseException]
  | ConnectionError => [ConnectionError; OSError; Exception; BaseException]
  | ConnectionRefusedError =>
      [ConnectionRefusedError; ConnectionError; OSError; Exception;
       BaseException]
  | ConnectionResetError =>
      [ConnectionResetError; ConnectionError; OSError; Exception;
       BaseException]
  | BrokenPipeError =>
      [BrokenPipeError; ConnectionError; OSError; Exception; BaseException]
  | TimeoutError => [TimeoutError; OSError; Exception; BaseException]
  | gaierror => [gaierror; OSError; Exception; BaseException]
  | SSLError => [SSLError; OSError; Exception; BaseException]
  | SSLCertVerificationError =>
      [SSLCertVerificationError; SSLError; OSError; ValueError; Exception;
       BaseException]
  | HTTPException => [HTTPException; Exception; BaseException]
  | BadStatusLine => [BadStatusLine; HTTPException; Exception; BaseException]
  | RemoteDisconnected =>
      [RemoteDisconnected; ConnectionResetError; ConnectionError; OSError;
       BadStatusLine; HTTPException; Exception; BaseException]
  | IncompleteRead =>
      [IncompleteRead; HTTPException; Exception; BaseException]
  end.

(** An exception object: its class and [str(e)]. *)
Record exn : Type := Exn { exn_class : py_class; exn_str : string }.

Definition isinstance (e : exn) (c : py_class) : bool :=
  existsb (py_class_eqb c) (mro (exn_class e)).

(** ** The handler's world *)

Definition bytes := list Byte.byte.

(** Module constants.  [API_KEY] is read from the environment and is an
    argument of every definition that depends on it. *)
Definition ANTHROPIC_HOST : string := "api.anthropic.com".
Definition ANTHROPIC_PORT : Z := 443.
Definition SKIP_REQUEST_HEADERS : list string := ["host"; "transfer-encoding"].
Definition SKIP_RESPONSE_HEADERS : list string :=
  ["transfer-encoding"; "connection"].

Definition mem (s : string) (l : list string) : bool :=
  existsb (String.eqb s) l.

(** The inbound request as [BaseHTTPRequestHandler] presents it: [headers] is
    an [HTTPMessage], which keeps every received field in order, and [rfile]
    holds the bytes that follow the header block. *)
Record request : Type := Request {
  requestline : string;
  path : string;
  headers : list (string * string);
  rfile : bytes
}.

(** [HTTPMessage.get(name)]: the value of the first field whose name matches
    case-insensitively. *)
Definition headers_get (hs : list (string * string)) (name : string)
  : option string :=
  option_map snd
    (find (fun kv => Py.lower (fst kv) =? Py.lower name) hs).

(** What the upstream side does once a request is sent to it: the exception
    raised by [conn.request] (connect, TLS handshake, send) if any, the result
    of [conn.getresponse()], the response body, and for each call of
    [response.read] (counted from 0) the exception it raises, if any. *)
Record upstream : Type := Upstream {
  up_request : option exn;
  up_response : (nat * list (string * string)) + exn;
  up_body : bytes;
  up_read : nat -> option exn
}.

(** The network: the upstream behaviour for a given outbound request
    (method, path, body, headers). *)
Definition network : Type :=
  string -> string -> option bytes -> Py.dict -> upstream.

(** The actions of a handler that are visible from outside: calls on the
    upstream connection and its response, lines written to stderr, and calls
    that write to the caller (which are taken to succeed). *)
Inductive event : Type :=
| Connection (host : string) (port timeout : Z)
| SendRequest (method url : string) (body : option bytes) (hdrs : Py.dict)
| GetResponse
| Read (amt : option nat)
| Close
| Log (line : string)
| SendResponse (code : nat)
| SendHeader (keyword value : string)
| EndHeaders
| Write (data : bytes)
| Flush
| SendError (code : nat) (message : string).

(** ** Computations: the events emitted so far, then a value or the
    exception that was raised. *)
Definition M (A : Type) : Type := (list event * (A + exn))%type.

Definition ret {A} (a : A) : M A := ([], inl a).
Definition raise {A} (e : exn) : M A := ([], inr e).
Definition emit (ev : event) : M unit := ([ev], inl tt).

Definition bind {A B} (m : M A) (f : A -> M B) : M B :=
  match m with
  | (t, inl a) => let (t', r) := f a in (t ++ t', r)
  | (t, inr e) => (t, inr e)
  end.

(** [try: m  except ... as e: h e] *)
Definition try_except {A} (m : M A) (h : exn -> M A) : M A :=
  match m with
  | (t, inr e) => let (t', r) := h e in (t ++ t', r)
  | (t, inl a) => (t, inl a)
  end.

Notation "x <- m ;; k" := (bind m (fun x => k))
  (at level 61, m at next level, right associativity).
Notation "m ;; k" := (bind m (fun _ => k))
  (at level 61, right associativity).

Definition events {A} (m : M A) : list event := fst m.
Definition result {A} (m : M A) : A + exn := snd m.

(** ** [BaseHTTPRequestHandler] operations *)

Definition LF : string := String "010" EmptyString.
Definition DQUOTE : string := String "034" EmptyString.

(** The format that [log_request] passes: ["%s" %s %s] with the request line
    in double quotes. *)
Definition log_request_format : string := DQUOTE ++ "%s" ++ DQUOTE ++ " %s %s".

(** [log_message(format, *args)], as overridden: only [args[0]] is written. *)
Definition log_message (format : string) (arg0 : string) (args : list string)
  : M unit :=
  emit (Log ("[anthropic-proxy] " ++ arg0 ++ LF)).

(** [send_response(code)] logs the request through [log_request] and queues
    the status line. *)
Definition send_response (self : request) (code : nat) : M unit :=
  log_message log_request_format (requestline self) [Py.str_of_nat code; "-"] ;;
  emit (SendResponse code).

(** [send_error(code, message)] logs through [log_error], then sends the
    status line (with [message] as reason phrase), its own headers and the
    error page.  The caller's socket is taken to be writable, so the call
    returns. *)
Definition send_error (self : request) (code : nat) (message : string)
  : M unit :=
  log_message "code %d, message %s" (Py.str_of_nat code) [message] ;;
  log_message log_request_format (requestline self) [Py.str_of_nat code; "-"] ;;
  emit (SendError code message).

(** [rfile.read(n)] on the buffered reader of the socket ([n] is converted
    to a 64-bit [ssize_t]): every byte up to the end of the connection for
    -1, the first [n] bytes, or all when fewer arrive, otherwise. *)
Definition SSIZE_MAX : Z := 9223372036854775807.

Definition rfile_read (self : request) (n : Z) : M bytes :=
  if ((n <? - SSIZE_MAX - 1) || (SSIZE_MAX <? n))%Z then
    raise (Exn OverflowError "cannot fit 'int' into an index-sized integer")
  else if (n <? -1)%Z then
    raise (Exn ValueError "read length must be non-negative or -1")
  else if (n =? -1)%Z then ret (rfile self)
  else ret (firstn (Z.to_nat n) (rfile self)).

(** ** The relay *)

(** Lines 62-70: the header mapping sent upstream. *)
Definition outbound_headers (API_KEY : string)
  (inbound : list (string * string)) : Py.dict :=
  let headers := [("Host", ANTHROPIC_HOST)] in
  let headers :=
    if Py.truthy API_KEY && negb (Py.truthy_opt (headers_get inbound "x-api-key"))
    then Py.dict_set headers "x-api-key" API_KEY
    else headers in
  fold_left
    (fun headers hv =>
       let '(header, value) := hv in
       if negb (mem (Py.lower header) SKIP_REQUEST_HEADERS)
       then Py.dict_set headers header value
       else headers)
    inbound headers.

(** Lines 80-88: forward the response headers and detect an event stream. *)
Fixpoint forward_headers (hs : list (string * string)) (is_streaming : bool)
  : M bool :=
  match hs with
  | [] => ret is_streaming
  | (header, value) :: hs' =>
      if negb (mem (Py.lower header) SKIP_RESPONSE_HEADERS) then
        emit (SendHeader header value) ;;
        forward_headers hs'
          (if (Py.lower header =? "content-type")
              && Py.contains "text/event-stream" value
           then true else is_streaming)
      else forward_headers hs' is_streaming
  end.

(** [response.read(amt)] as call number [k] on the unread part [rest] of the
    body: the bytes returned and the bytes left.  A read returns [amt] bytes
    unless the body ends first; without [amt] it returns all that is left. *)
Definition response_read (u : upstream) (k : nat) (amt : option nat)
  (rest : bytes) : (bytes * bytes) + exn :=
  match up_read u k with
  | Some e => inr e
  | None =>
      match amt with
      | Some n => inl (firstn n rest, skipn n rest)
      | None => inl (rest, [])
      end
  end.

Definition after {A} (t : list event) (m : M A) : M A :=
  (t ++ fst m, snd m).

(** Lines 95-100: the streaming loop, [k] reads having been made. *)
#[local] Obligation Tactic := idtac.

Equations? stream_loop (u : upstream) (k : nat) (rest : bytes) : M unit
  by wf (length rest) lt :=
  stream_loop u k rest with inspect (response_read u k (Some 4096) rest) := {
    | exist _ (inr e) _ => ([Read (Some 4096)], inr e)
    | exist _ (inl ([], _)) _ => ([Read (Some 4096)], inl tt)
    | exist _ (inl (c :: chunk, rest')) H =>
        after [Read (Some 4096); Write (c :: chunk); Flush]
          (stream_loop u (S k) rest')
  }.
Proof.
  unfold response_read in H. destruct (up_read u k); [discriminate|].
  remember 4096 as n eqn:Hn.
  injection H as H1 H2. subst rest'.
  destruct rest as [|b0 rest].
  - rewrite firstn_nil in H1. discriminate.
  - rewrite length_skipn. cbn [length]. subst n. lia.
Qed.

(** Lines 93-103: relay the body in the mode chosen by [is_streaming]. *)
Definition relay_body (u : upstream) (is_streaming : bool) : M unit :=
  if is_streaming then stream_loop u 0 (up_body u)
  else
    match response_read u 0 None (up_body u) with
    | inr e => ([Read None], inr e)
    | inl (data, _) => ([Read None; Write data], inl tt)
    end.

(** Lines 47-50: the request body, read before the [try] block. *)
Definition read_body (self : request) : M (option bytes) :=
  let content_length := headers_get (headers self) "Content-Length" in
  if Py.truthy_opt content_length then
    match content_length with
    | Some s =>
        match Py.int s with
        | inl n => data <- rfile_read self n ;; ret (Some data)
        | inr message => raise (Exn ValueError message)
        end
    | None => ret None
    end
  else ret None.

(** Lines 56-105: the body of the [try] block.  The calls on the upstream
    connection and on its response raise what the upstream side makes them
    raise; the calls that write to the caller are taken to succeed. *)
Definition try_body (API_KEY : string) (net : network) (self : request)
  (method : string) (body : option bytes) : M unit :=
  emit (Connection ANTHROPIC_HOST ANTHROPIC_PORT 300) ;;
  let headers := outbound_headers API_KEY (headers self) in
  let u := net method (path self) body headers in
  emit (SendRequest method (path self) body headers) ;;
  match up_request u with
  | Some e => raise e
  | None =>
      emit GetResponse ;;
      match up_response u with
      | inr e => raise e
      | inl (status, response_headers) =>
          send_response self status ;;
          is_streaming <- forward_headers response_headers false ;;
          emit EndHeaders ;;
          relay_body u is_streaming ;;
          emit Close
      end
  end.

(** Lines 107-114: the [except] clauses, tried in order. *)
Definition except_clauses (self : request) (e : exn) : M unit :=
  if isinstance e HTTPException then
    send_error self 502 ("Upstream error: " ++ exn_str e)
  else if isinstance e SSLError then
    send_error self 502 ("SSL error: " ++ exn_str e)
  else if isinstance e TimeoutError then
    send_error self 504 "Upstream timeout"
  else if isinstance e Exception then
    send_error self 500 ("Proxy error: " ++ exn_str e)
  else raise e.

Definition _proxy_request (API_KEY : string) (net : network) (self : request)
  (method : string) : M unit :=
  body <- read_body self ;;
  try_except (try_body API_KEY net self method body) (except_clauses self).

Definition do_GET (API_KEY : string) (net : network) (self : request)
  : M unit :=
  _proxy_request API_KEY net self "GET".

Definition do_POST (API_KEY : string) (net : network) (self : request)
  : M unit :=
  _proxy_request API_KEY net self "POST".

Definition do_OPTIONS (self : request) : M unit :=
  send_response self 200 ;;
  emit (SendHeader "Access-Control-Allow-Origin" "*") ;;
  emit (SendHeader "Access-Control-Allow-Methods" "GET, POST, OPTIONS") ;;
  emit (SendHeader "Access-Control-Allow-Headers" "*") ;;
  emit EndHeaders.

(** ** Views of a run *)

(** The data written to the caller by [wfile.write]. *)
Fixpoint writes (t : list event) : list bytes :=
  match t with
  | [] => []
  | Write data :: t' => data :: writes t'
  | _ :: t' => writes t'
  end.

(** Log lines written to stderr and error messages sent to the caller. *)
Fixpoint diagnostics (t : list event) : list string :=
  match t with
  | [] => []
  | Log line :: t' => line :: diagnostics t'
  | SendError _ message :: t' => message :: diagnostics t'
  | _ :: t' => diagnostics t'
  end.

Definition is_connection (ev : event) : bool :=
  match ev with Connection _ _ _ => true | _ => false end.

Definition is_close (ev : event) : bool :=
  match ev with Close => true | _ => false end.

Definition is_upstream (ev : event) : bool :=
  match ev with
  | Connection _ _ _ | SendRequest _ _ _ _ | GetResponse | Read _ | Close =>
      true
  | _ => false
  end.

Definition is_send_error (ev : event) : bool :=
  match ev with SendError _ _ => true | _ => false end.

(** Bytes of the real response: status line, headers, body. *)
Definition is_response_bytes (ev : event) : bool :=
  match ev with
  | SendResponse _ | SendHeader _ _ | EndHeaders | Write _ => true
  | _ => false
  end.

(** [error_after_bytes sent t]: some formatted error response is emitted in
    [t] after response bytes were written ([sent] says whether some were
    written before [t]). *)
Fixpoint error_after_bytes (sent : bool) (t : list event) : bool :=
  match t with
  | [] => false
  | ev :: t' =>
      (sent && is_send_error ev)
      || error_after_bytes (sent || is_response_bytes ev) t'
  end.

(** The status codes announced to the caller, by either call. *)
Fixpoint statuses (t : list event) : list nat :=
  match t with
  | [] => []
  | SendResponse code :: t' => code :: statuses t'
  | SendError code _ :: t' => code :: statuses t'
  | _ :: t' => statuses t'
  end.

(** The headers set by [send_header]. *)
Fixpoint sent_headers (t : list event) : list (string * string) :=
  match t with
  | [] => []
  | SendHeader k v :: t' => (k, v) :: sent_headers t'
  | _ :: t' => sent_headers t'
  end.

(** ** The design document's wording, for comparison *)

(** A name denotes the credential header when it equals [x-api-key] up to
    case. *)
Definition is_credential_name (h : string) : bool :=
  Py.lower h =? "x-api-key".

Definition carries_credential (inbound : list (string * string)) : bool :=
  existsb (fun kv => is_credential_name (fst kv)) inbound.

(** "the inbound set minus the fixed skip-set, plus a Host header always equal
    to the upstream host". *)
Definition minus_skip_plus_host (inbound : list (string * string)) : Py.dict :=
  Py.dict_set
    (filter (fun kv => negb (mem (Py.lower (fst kv)) SKIP_REQUEST_HEADERS))
       (Py.dict_of_items inbound))
    "Host" ANTHROPIC_HOST.

(** "true iff a content-type header value contains the substring identifying
    a server-sent-event stream". *)
Definition detectStreaming (hs : list (string * string)) : bool :=
  existsb
    (fun hv => (Py.lower (fst hv) =? "content-type")
               && Py.contains "text/event-stream" (snd hv))
    hs.

(** The condition of line 65. *)
Definition injects (API_KEY : string) (inbound : list (string * string))
  : bool :=
  Py.truthy API_KEY && negb (Py.truthy_opt (headers_get inbound "x-api-key")).

(** The events of a streamed body made of [chunks]: each chunk is read,
    written and flushed in turn. *)
Definition chunk_events (chunks : list bytes) : list event :=
  flat_map (fun c => [Read (Some 4096); Write c; Flush]) chunks.

(** The events up to [end_headers()] of an exchange that got the response
    [(status, hs)] for the request [(method, body)]. *)
Definition exchange_events (API_KEY : string) (self : request)
  (method : string) (body : option bytes) (status : nat)
  (hs : list (string * string)) : list event :=
  [Connection ANTHROPIC_HOST ANTHROPIC_PORT 300;
   SendRequest method (path self) body
     (outbound_headers API_KEY (headers self));
   GetResponse;
   Log ("[anthropic-proxy] " ++ requestline self ++ LF);
   SendResponse status]
  ++ map (fun hv => SendHeader (fst hv) (snd hv))
       (filter
          (fun hv => negb (mem (Py.lower (fst hv)) SKIP_RESPONSE_HEADERS)) hs)
  ++ [EndHeaders].

(** The status and message that the [except] clauses give to an exception
    that they catch. *)
Definition error_status (e : exn) : nat :=
  if isinstance e HTTPException then 502
  else if isinstance e SSLError then 502
  else if isinstance e TimeoutError then 504
  else 500.

Definition error_message (e : exn) : string :=
  if isinstance e HTTPException then "Upstream error: " ++ exn_str e
  else if isinstance e SSLError then "SSL error: " ++ exn_str e
  else if isinstance e TimeoutError then "Upstream timeout"
  else "Proxy error: " ++ exn_str e.

(** The events of [send_error(code, message)]. *)
Definition error_events (self : request) (code : nat) (message : string)
  : list event :=
  [Log ("[anthropic-proxy] " ++ Py.str_of_nat code ++ LF);
   Log ("[anthropic-proxy] " ++ requestline self ++ LF);
   SendError code message].

(** Events that are neither an error response, nor the closing or the
    creation of the upstream connection. *)
Definition quiet (ev : event) : bool :=
  negb (is_send_error ev || is_close ev || is_connection ev).

(** ** Sample exchanges *)

Definition constant_network (u : upstream) : network := fun _ _ _ _ => u.

Definition sample_request : request :=
  Request "GET /v1/models HTTP/1.1" "/v1/models"
    [("Host", "localhost:3129"); ("Accept", "*/*")] [].

Definition hi : bytes := [Byte.x68; Byte.x69].

(** An event stream of two bytes. *)
Definition sse_upstream : upstream :=
  Upstream None (inl (200, [("Content-Type", "text/event-stream")])) hi
    (fun _ => None).

(** A plain response of two bytes. *)
Definition json_upstream : upstream :=
  Upstream None (inl (200, [("Content-Type", "application/json")])) hi
    (fun _ => None).

(** Nobody listens on the upstream port: [connect()] fails and
    [conn.request] raises [ConnectionRefusedError]. *)
Definition refused_upstream : upstream :=
  Upstream (Some (Exn ConnectionRefusedError "[Errno 111] Connection refused"))
    (inr (Exn ConnectionRefusedError "[Errno 111] Connection refused")) []
    (fun _ => None).

(** Upstream accepts the request and then stays silent for 300 seconds:
    [conn.getresponse()] raises [TimeoutError]. *)
Definition silent_upstream : upstream :=
  Upstream None (inr (Exn TimeoutError "timed out")) [] (fun _ => None).

(** An event stream of 5000 bytes that is cut off: the first [read(4096)]
    returns 4096 bytes, the second finds the connection closed in the middle
    of a chunk and raises [IncompleteRead]. *)
Definition broken_stream_upstream : upstream :=
  Upstream None (inl (200, [("Content-Type", "text/event-stream")]))
    (repeat Byte.x61 5000)
    (fun k =>
       if Nat.eqb k 1 then Some (Exn IncompleteRead "IncompleteRead(904 bytes read)")
       else None).

(** ** The check of [http.client] on header values

    [conn.request] hands every header to [putheader], which refuses a value
    that holds a line feed not followed by a space or a tab, or a carriage
    return not followed by a space, a tab or a line feed, with
    [ValueError('Invalid header value %r' % (value,))] on the encoded
    value. *)
Fixpoint illegal_header_value (v : string) : bool :=
  match v with
  | EmptyString => false
  | String c v' =>
      let next :=
        match v' with
        | String d _ => Some (nat_of_ascii d)
        | EmptyString => None
        end in
      let followed_by (l : list nat) :=
        match next with
        | Some n => existsb (Nat.eqb n) l
        | None => false
        end in
      (Nat.eqb (nat_of_ascii c) 10 && negb (followed_by [32; 9]))
      || (Nat.eqb (nat_of_ascii c) 13 && negb (followed_by [32; 9; 10]))
      || illegal_header_value v'
  end.

Definition putheader_check (hdrs : Py.dict) : option exn :=
  match find (fun hv => illegal_header_value (snd hv)) hdrs with
  | Some hv => Some (Exn ValueError ("Invalid header value " ++ Py.bytes_repr (snd hv)))
  | None => None
  end.

(** The upstream [u] behind [http.client]: a request with a header value
    that [putheader] refuses is not sent. *)
Definition http_client (u : upstream) : network :=
  fun _ _ _ hdrs =>
    match putheader_check hdrs with
    | Some e => Upstream (Some e) (up_response u) (up_body u) (up_read u)
    | None => u
    end.

(** ** The server thread and the start-up banner *)

(** What the server thread does around a handler: the handler's own events,
    the report of a failure and the closing of the caller's socket. *)
Inductive server_event : Type :=
| Handler (ev : event)
| HandleError
| ShutdownRequest.

(** Lines 145-153, [_process_request_thread]: [finish_request] runs the
    handler; an [Exception] is reported by [handle_error]; in every case
    [shutdown_request] follows, and what is no [Exception] goes on to the
    caller of the thread function. *)
Definition _process_request_thread (finish_request : M unit)
  : list server_event * (unit + exn) :=
  match finish_request with
  | (t, inl _) => (map Handler t ++ [ShutdownRequest], inl tt)
  | (t, inr e) =>
      if isinstance e Exception
      then (map Handler t ++ [HandleError; ShutdownRequest], inl tt)
      else (map Handler t ++ [ShutdownRequest], inr e)
  end.

(** Line 158: [API_KEY[:12] + "..." if len(API_KEY) > 12 else "***"]. *)
Definition key_preview (API_KEY : string) : string :=
  if Nat.ltb 12 (String.length API_KEY)
  then substring 0 12 API_KEY ++ "..."
  else "***".

(** Lines 157-167: the first line that [main] prints. *)
Definition injection_banner (API_KEY : string) : string :=
  if Py.truthy API_KEY
  then "[anthropic-proxy] API key injection enabled: " ++ key_preview API_KEY
  else "[anthropic-proxy] No API key configured - passthrough mode".

(** ** More views of a run *)

(** The lines written to stderr. *)
Fixpoint logs (t : list event) : list string :=
  match t with
  | [] => []
  | Log line :: t' => line :: logs t'
  | _ :: t' => logs t'
  end.

(** The creation of the upstream connection and the sending of the request. *)
Definition is_upstream_call (ev : event) : bool :=
  match ev with
  | Connection _ _ _ | SendRequest _ _ _ _ => true
  | _ => false
  end.

(** The events of the body relay. *)
Definition is_body_event (ev : event) : bool :=
  match ev with
  | Read _ | Write _ | Flush => true
  | _ => false
  end.

(** What the [except] clauses emit for [e]: the error response when [e] is
    an [Exception], nothing otherwise. *)
Definition handled (self : request) (e : exn) : list event :=
  if isinstance e Exception
  then error_events self (error_status e) (error_message e)
  else [].

(** The events of a run of [_proxy_request] that has read the request body
    [body], spelled out along the outcome of each upstream call. *)
Definition run_events (API_KEY : string) (net : network) (self : request)
  (method : string) (body : option bytes) : list event :=
  let u :=
    net method (path self) body (outbound_headers API_KEY (headers self)) in
  [Connection ANTHROPIC_HOST ANTHROPIC_PORT 300;
   SendRequest method (path self) body
     (outbound_headers API_KEY (headers self))]
  ++ match up_request u with
     | Some e => handled self e
     | None =>
         GetResponse ::
         match up_response u with
         | inr e => handled self e
         | inl (status, hs) =>
             [Log ("[anthropic-proxy] " ++ requestline self ++ LF);
              SendResponse status]
             ++ map (fun hv => SendHeader (fst hv) (snd hv))
                  (filter
                     (fun hv =>
                        negb (mem (Py.lower (fst hv)) SKIP_RESPONSE_HEADERS))
                     hs)
             ++ [EndHeaders]
             ++ events (relay_body u (detectStreaming hs))
             ++ match result (relay_body u (detectStreaming hs)) with
                | inl _ => [Close]
                | inr e => handled self e
                end
         end
     end.

(** * Properties *)

(** ** Dictionaries *)

Module DictFacts.
Import Py.

Lemma dict_get_set d k v h :
  dict_get (dict_set d k v) h = if k =? h then Some v else dict_get d h.
Proof.
  induction d as [|[k' v'] d IH]; simpl.
  - reflexivity.
  - destruct (k' =? k) eqn:Ek; simpl.
    + apply String.eqb_eq in Ek. subst k'.
      destruct (k =? h); reflexivity.
    + destruct (k' =? h) eqn:Eh.
      * apply String.eqb_eq in Eh. subst k'.
        rewrite String.eqb_sym, Ek. reflexivity.
      * exact IH.
Qed.

(** The last value that [items] gives to [h] among the fields that [keep]
    lets through. *)
Fixpoint last_kept (keep : string -> bool) (items : list (string * string))
  (h : string) : option string :=
  match items with
  | [] => None
  | (k, v) :: items' =>
      match last_kept keep items' h with
      | Some v' => Some v'
      | None => if keep k && (k =? h) then Some v else None
      end
  end.

Definition copy_step (keep : string -> bool) (d : dict) (hv : string * string)
  : dict :=
  let '(header, value) := hv in
  if keep header then dict_set d header value else d.

Lemma dict_get_copy keep items : forall d h,
  dict_get (fold_left (copy_step keep) items d) h =
  match last_kept keep items h with
  | Some v => Some v
  | None => dict_get d h
  end.
Proof.
  induction items as [|[k v] items IH]; intros d h; simpl.
  - reflexivity.
  - rewrite IH. destruct (last_kept keep items h); [reflexivity|].
    destruct (keep k); simpl; [|reflexivity].
    rewrite dict_get_set. destruct (k =? h); reflexivity.
Qed.

Lemma last_kept_keep keep items h :
  last_kept keep items h =
  if keep h then last_kept (fun _ => true) items h else None.
Proof.
  induction items as [|[k v] items IH]; simpl.
  - destruct (keep h); reflexivity.
  - rewrite IH. clear IH.
    destruct (k =? h) eqn:E.
    + apply String.eqb_eq in E. subst k.
      destruct (keep h); simpl; reflexivity.
    + rewrite andb_false_r.
      destruct (keep h); [|reflexivity].
      destruct (last_kept _ items h); reflexivity.
Qed.

Lemma dict_of_items_copy items : forall d,
  fold_left (fun d kv => dict_set d (fst kv) (snd kv)) items d =
  fold_left (copy_step (fun _ => true)) items d.
Proof.
  induction items as [|[k v] items IH]; intros d; simpl; auto.
Qed.

Lemma dict_get_of_items items h :
  dict_get (dict_of_items items) h = last_kept (fun _ => true) items h.
Proof.
  unfold dict_of_items. rewrite dict_of_items_copy, dict_get_copy.
  simpl. destruct (last_kept _ items h); reflexivity.
Qed.

Lemma dict_get_filter (keep : string -> bool) (d : dict) h :
  dict_get (filter (fun kv => keep (fst kv)) d) h =
  if keep h then dict_get d h else None.
Proof.
  induction d as [|[k v] d IH]; simpl.
  - destruct (keep h); reflexivity.
  - destruct (k =? h) eqn:E.
    + apply String.eqb_eq in E. subst k.
      destruct (keep h) eqn:Kh; simpl.
      * rewrite String.eqb_refl. reflexivity.
      * exact IH.
    + destruct (keep k); simpl; [rewrite E|]; exact IH.
Qed.

End DictFacts.

(** ** Outbound headers (lines 62-70) *)

Module HeaderFacts.
Import Py DictFacts.

Definition keep_request (header : string) : bool :=
  negb (mem (lower header) SKIP_REQUEST_HEADERS).

(** The dictionary before the copy loop. *)
Definition initial_headers (API_KEY : string)
  (inbound : list (string * string)) : dict :=
  if injects API_KEY inbound
  then [("Host", ANTHROPIC_HOST); ("x-api-key", API_KEY)]
  else [("Host", ANTHROPIC_HOST)].

Lemma outbound_headers_fold API_KEY inbound :
  outbound_headers API_KEY inbound =
  fold_left (copy_step keep_request) inbound (initial_headers API_KEY inbound).
Proof.
  unfold outbound_headers, initial_headers, injects.
  destruct (truthy API_KEY && _); reflexivity.
Qed.

Lemma outbound_headers_get API_KEY inbound h :
  dict_get (outbound_headers API_KEY inbound) h =
  match (if keep_request h then dict_get (dict_of_items inbound) h else None)
  with
  | Some v => Some v
  | None => dict_get (initial_headers API_KEY inbound) h
  end.
Proof.
  rewrite outbound_headers_fold, dict_get_copy, last_kept_keep.
  rewrite dict_get_of_items. reflexivity.
Qed.

Lemma minus_skip_plus_host_get inbound h :
  dict_get (minus_skip_plus_host inbound) h =
  if "Host" =? h then Some ANTHROPIC_HOST
  else if keep_request h then dict_get (dict_of_items inbound) h else None.
Proof.
  unfold minus_skip_plus_host. rewrite dict_get_set.
  destruct ("Host" =? h); [reflexivity|].
  apply (dict_get_filter keep_request).
Qed.

Lemma initial_headers_get API_KEY inbound h :
  dict_get (initial_headers API_KEY inbound) h =
  if "Host" =? h then Some ANTHROPIC_HOST
  else if injects API_KEY inbound && (h =? "x-api-key") then Some API_KEY
  else None.
Proof.
  unfold initial_headers.
  destruct (injects API_KEY inbound); cbn [dict_get andb];
    destruct ("Host" =? h); try reflexivity.
  rewrite (String.eqb_sym "x-api-key" h).
  destruct (h =? "x-api-key"); reflexivity.
Qed.

(** A credential name is neither skipped nor [Host]. *)
Lemma credential_name_kept h :
  is_credential_name h = true ->
  keep_request h = true /\ ("Host" =? h) = false.
Proof.
  unfold is_credential_name, keep_request. intros H.
  apply String.eqb_eq in H. rewrite H. split; [reflexivity|].
  destruct ("Host" =? h) eqn:E; [|reflexivity].
  apply String.eqb_eq in E. subst h. discriminate.
Qed.

Lemma no_credential_no_value inbound h :
  carries_credential inbound = false ->
  is_credential_name h = true ->
  dict_get (dict_of_items inbound) h = None.
Proof.
  intros Hc Hh. rewrite dict_get_of_items.
  induction inbound as [|[k v] inbound IH]; simpl in *; [reflexivity|].
  apply orb_false_iff in Hc. destruct Hc as [Hk Hc].
  rewrite (IH Hc).
  destruct (k =? h) eqn:E; [|reflexivity].
  apply String.eqb_eq in E. subst k. congruence.
Qed.

Lemma no_credential_get_none inbound :
  carries_credential inbound = false ->
  headers_get inbound "x-api-key" = None.
Proof.
  unfold headers_get, carries_credential, is_credential_name.
  change (lower "x-api-key") with "x-api-key".
  induction inbound as [|[k v] inbound IH];
    cbn [find existsb fst option_map]; [reflexivity|].
  intros Hc. apply orb_false_iff in Hc. destruct Hc as [Hk Hc].
  rewrite Hk. exact (IH Hc).
Qed.

End HeaderFacts.

(** The reading of "the caller's original value is preserved": under every
    spelling of the credential header, the mapping sent upstream holds what
    the caller's headers hold. *)
Definition caller_credential_preserved (API_KEY : string)
  (inbound : list (string * string)) : Prop :=
  forall h, is_credential_name h = true ->
    Py.dict_get (outbound_headers API_KEY inbound) h =
    Py.dict_get (Py.dict_of_items inbound) h.

(** C1, as stated, fails: a caller that sends the credential header with an
    empty value (here [X-Api-Key:]) carries the header, yet line 65 tests the
    value for truth, so the configured credential is sent as [x-api-key]
    beside the caller's field. *)
Lemma C1_empty_value_counterexample :
  carries_credential [("X-Api-Key", EmptyString)] = true /\
  Py.dict_get (outbound_headers "sk-test" [("X-Api-Key", EmptyString)])
    "x-api-key" = Some "sk-test" /\
  ~ caller_credential_preserved "sk-test" [("X-Api-Key", EmptyString)].
Proof.
  split; [reflexivity|]. split; [reflexivity|].
  intros H. specialize (H "x-api-key" eq_refl). discriminate H.
Qed.

(** C1 (amended): with a non-empty configured credential and no inbound
    credential header (under any spelling), the mapping sent upstream has
    [x-api-key] set to the configured value and no other spelling of it; and
    when the first inbound credential header has a non-empty value, the
    mapping holds the caller's values under every spelling and the
    configured credential is not written. *)
Theorem C1_credential_header (API_KEY : string)
  (inbound : list (string * string)) :
  (Py.truthy API_KEY = true ->
   carries_credential inbound = false ->
   forall h, is_credential_name h = true ->
     Py.dict_get (outbound_headers API_KEY inbound) h =
     if h =? "x-api-key" then Some API_KEY else None) /\
  (Py.truthy_opt (headers_get inbound "x-api-key") = true ->
   caller_credential_preserved API_KEY inbound).
Proof.
  split.
  - intros Hkey Hno h Hh.
    rewrite HeaderFacts.outbound_headers_get.
    destruct (HeaderFacts.credential_name_kept h Hh) as [Hkeep Hhost].
    rewrite Hkeep, (HeaderFacts.no_credential_no_value inbound h Hno Hh).
    rewrite HeaderFacts.initial_headers_get, Hhost.
    unfold injects.
    rewrite Hkey, (HeaderFacts.no_credential_get_none inbound Hno).
    reflexivity.
  - intros Hget h Hh.
    rewrite HeaderFacts.outbound_headers_get.
    destruct (HeaderFacts.credential_name_kept h Hh) as [Hkeep Hhost].
    rewrite Hkeep, HeaderFacts.initial_headers_get, Hhost.
    unfold injects. rewrite Hget, andb_false_r. simpl.
    destruct (Py.dict_get (Py.dict_of_items inbound) h); reflexivity.
Qed.

Lemma C1_credential_header_witness :
  Py.dict_get (outbound_headers "sk-test" [("Accept", "*/*")]) "x-api-key"
    = Some "sk-test" /\
  Py.dict_get (outbound_headers "sk-test" [("X-Api-Key", "mine")]) "X-Api-Key"
    = Some "mine".
Proof.
  split.
  - exact (proj1 (C1_credential_header "sk-test" [("Accept", "*/*")])
             eq_refl eq_refl "x-api-key" eq_refl).
  - exact (proj2 (C1_credential_header "sk-test" [("X-Api-Key", "mine")])
             eq_refl "X-Api-Key" eq_refl).
Defined.

(** C2, as stated, fails whenever the credential is injected: the mapping
    sent upstream then has one more entry than the inbound set minus the
    skip-set plus [Host]. *)
Lemma C2_injected_counterexample :
  ~ (forall h,
       Py.dict_get (outbound_headers "sk-test" [("Accept", "*/*")]) h =
       Py.dict_get (minus_skip_plus_host [("Accept", "*/*")]) h).
Proof.
  intros H. specialize (H "x-api-key"). discriminate H.
Qed.

(** C2 (amended): under every name, the mapping sent upstream holds what the
    inbound set minus the skip-set plus [Host] holds, and in addition
    [x-api-key] with the configured value when line 65 injects it and the
    caller sent no field of exactly that name; [Host] is always the upstream
    host and no other spelling of a skipped name is sent. *)
Theorem C2_outbound_headers (API_KEY : string)
  (inbound : list (string * string)) :
  (forall h,
     Py.dict_get (outbound_headers API_KEY inbound) h =
     match Py.dict_get (minus_skip_plus_host inbound) h with
     | Some v => Some v
     | None =>
         if injects API_KEY inbound && (h =? "x-api-key")
         then Some API_KEY else None
     end) /\
  Py.dict_get (outbound_headers API_KEY inbound) "Host" = Some ANTHROPIC_HOST /\
  (forall h, mem (Py.lower h) SKIP_REQUEST_HEADERS = true -> h <> "Host" ->
     Py.dict_get (outbound_headers API_KEY inbound) h = None).
Proof.
  assert (G : forall h,
     Py.dict_get (outbound_headers API_KEY inbound) h =
     match Py.dict_get (minus_skip_plus_host inbound) h with
     | Some v => Some v
     | None =>
         if injects API_KEY inbound && (h =? "x-api-key")
         then Some API_KEY else None
     end).
  { intros h.
    rewrite HeaderFacts.outbound_headers_get,
      HeaderFacts.minus_skip_plus_host_get, HeaderFacts.initial_headers_get.
    destruct ("Host" =? h) eqn:Eh.
    - apply String.eqb_eq in Eh. subst h. reflexivity.
    - destruct (HeaderFacts.keep_request h);
        [destruct (Py.dict_get (Py.dict_of_items inbound) h)|]; reflexivity. }
  split; [exact G|]. split.
  - rewrite G, HeaderFacts.minus_skip_plus_host_get. reflexivity.
  - intros h Hskip Hneq.
    rewrite G, HeaderFacts.minus_skip_plus_host_get.
    destruct ("Host" =? h) eqn:Eh.
    + apply String.eqb_eq in Eh. congruence.
    + unfold HeaderFacts.keep_request. rewrite Hskip. simpl.
      destruct (h =? "x-api-key") eqn:Ek; [|rewrite andb_false_r; reflexivity].
      apply String.eqb_eq in Ek. subst h. discriminate Hskip.
Qed.

Lemma C2_outbound_headers_witness :
  Py.dict_get (outbound_headers "sk-test" [("host", "localhost:3129")]) "host"
    = None.
Proof.
  apply (proj2 (proj2 (C2_outbound_headers "sk-test"
                         [("host", "localhost:3129")]))).
  - reflexivity.
  - discriminate.
Defined.

(** ** The relay (lines 72-105) *)

Module RelayFacts.

Lemma bind_ret_l {A B} (a : A) (f : A -> M B) : bind (ret a) f = f a.
Proof. unfold bind, ret. destruct (f a). reflexivity. Qed.

Lemma bind_emit {B} ev (f : unit -> M B) :
  bind (emit ev) f = after [ev] (f tt).
Proof. unfold bind, emit, after. destruct (f tt). reflexivity. Qed.

Lemma bind_after {A B} t (m : M A) (f : A -> M B) :
  bind (after t m) f = after t (bind m f).
Proof.
  unfold bind, after. destruct m as [t' [a|e]]; simpl.
  - destruct (f a). simpl. rewrite app_assoc. reflexivity.
  - reflexivity.
Qed.

Lemma after_after {A} t t' (m : M A) :
  after t (after t' m) = after (t ++ t') m.
Proof. unfold after. simpl. rewrite app_assoc. reflexivity. Qed.

Lemma after_pair {A} t t' (r : A + exn) : after t (t', r) = (t ++ t', r).
Proof. reflexivity. Qed.

Lemma stream_loop_eq u k rest :
  stream_loop u k rest =
  match response_read u k (Some 4096) rest with
  | inr e => ([Read (Some 4096)], inr e)
  | inl ([], _) => ([Read (Some 4096)], inl tt)
  | inl (c :: chunk, rest') =>
      after [Read (Some 4096); Write (c :: chunk); Flush]
        (stream_loop u (S k) rest')
  end.
Proof.
  rewrite stream_loop_equation_1.
  destruct (inspect (response_read u k (Some 4096) rest)) as [r E].
  transitivity
    (match r with
     | inr e => ([Read (Some 4096)], inr e)
     | inl ([], _) => ([Read (Some 4096)], inl tt)
     | inl (c :: chunk, rest') =>
         after [Read (Some 4096); Write (c :: chunk); Flush]
           (stream_loop u (S k) rest')
     end).
  - destruct r as [[[|c chunk] rest']|e]; reflexivity.
  - rewrite E. reflexivity.
Qed.

(** The header loop sends every header outside the skip-set and returns the
    flag of the design document. *)
Lemma forward_headers_eq hs : forall flag,
  forward_headers hs flag =
  (map (fun hv => SendHeader (fst hv) (snd hv))
     (filter
        (fun hv => negb (mem (Py.lower (fst hv)) SKIP_RESPONSE_HEADERS)) hs),
   inl (flag || detectStreaming hs)).
Proof.
  induction hs as [|[header value] hs IH]; intros flag.
  - simpl. rewrite orb_false_r. reflexivity.
  - cbn [forward_headers filter map detectStreaming existsb fst snd].
    destruct (negb (mem (Py.lower header) SKIP_RESPONSE_HEADERS)) eqn:Hk.
    + rewrite bind_emit, IH. cbn [map fst snd]. unfold after. simpl.
      f_equal. f_equal. fold (detectStreaming hs).
      destruct ((Py.lower header =? "content-type")
                && Py.contains "text/event-stream" value);
        destruct flag; reflexivity.
    + rewrite IH. f_equal. f_equal. fold (detectStreaming hs).
      destruct (Py.lower header =? "content-type") eqn:E;
        [|reflexivity].
      apply String.eqb_eq in E. rewrite E in Hk. discriminate Hk.
Qed.

(** Without read failures the streaming loop relays the body chunk by chunk
    and stops at the first empty read. *)
Lemma stream_loop_chunks u :
  (forall k, up_read u k = None) ->
  forall n rest k, length rest <= n ->
  exists chunks,
    stream_loop u k rest = (chunk_events chunks ++ [Read (Some 4096)], inl tt)
    /\ concat chunks = rest
    /\ Forall (fun c => 1 <= length c <= 4096) chunks.
Proof.
  intros Hread n. induction n as [|n IH]; intros rest k Hlen.
  - destruct rest; [|simpl in Hlen; lia].
    exists []. rewrite stream_loop_eq. unfold response_read.
    rewrite Hread, firstn_nil. repeat split. constructor.
  - destruct rest as [|b0 rest].
    + exists []. rewrite stream_loop_eq. unfold response_read.
      rewrite Hread, firstn_nil. repeat split. constructor.
    + rewrite stream_loop_eq. unfold response_read. rewrite Hread.
      change 4096 with (S 4095) at 1 2.
      rewrite firstn_cons, skipn_cons.
      destruct (IH (skipn 4095 rest) (S k)) as (chunks & Hloop & Hcat & Hall).
      { rewrite length_skipn. simpl in Hlen. lia. }
      exists ((b0 :: firstn 4095 rest) :: chunks).
      rewrite Hloop. repeat split.
      * cbn [concat app]. rewrite Hcat, firstn_skipn. reflexivity.
      * constructor; [|exact Hall].
        cbn [length]. pose proof (firstn_le_length 4095 rest). lia.
Qed.

End RelayFacts.

(** ** The handler as a whole *)

Module HandlerFacts.
Import RelayFacts.

Lemma read_body_events self : events (read_body self) = [].
Proof.
  unfold read_body, rfile_read, events.
  destruct (headers_get (headers self) "Content-Length") as [s|];
    cbn [Py.truthy_opt]; [|reflexivity].
  destruct (Py.truthy s); [|reflexivity].
  destruct (Py.int s) as [n|]; [|reflexivity].
  destruct ((n <? - SSIZE_MAX - 1) || (SSIZE_MAX <? n))%Z; [reflexivity|].
  destruct (n <? -1)%Z; [reflexivity|].
  destruct (n =? -1)%Z; reflexivity.
Qed.

Lemma read_body_value self body :
  result (read_body self) = inl body -> read_body self = ([], inl body).
Proof.
  intros H. pose proof (read_body_events self) as E.
  destruct (read_body self) as [t r]. simpl in *. subst. reflexivity.
Qed.

Lemma proxy_request_eq API_KEY net self method body :
  result (read_body self) = inl body ->
  _proxy_request API_KEY net self method =
  try_except (try_body API_KEY net self method body) (except_clauses self).
Proof.
  intros H. unfold _proxy_request.
  rewrite (read_body_value self body H).
  exact (bind_ret_l body
           (fun body =>
              try_except (try_body API_KEY net self method body)
                (except_clauses self))).
Qed.

(** The [try] block up to [end_headers()], when upstream answers. *)
Lemma try_body_response API_KEY net self method body status hs :
  up_request
    (net method (path self) body (outbound_headers API_KEY (headers self)))
    = None ->
  up_response
    (net method (path self) body (outbound_headers API_KEY (headers self)))
    = inl (status, hs) ->
  try_body API_KEY net self method body =
  after (exchange_events API_KEY self method body status hs)
    (relay_body
       (net method (path self) body (outbound_headers API_KEY (headers self)))
       (detectStreaming hs) ;;
     emit Close).
Proof.
  intros Hreq Hresp. unfold try_body.
  cbv zeta. rewrite Hreq, Hresp.
  unfold send_response, log_message.
  rewrite !bind_emit, !bind_after, !bind_emit, forward_headers_eq.
  unfold exchange_events, after, bind, emit.
  cbn [fst snd orb app].
  destruct (relay_body _ _) as [t [[]|e]]; cbn [fst snd app];
    rewrite <- ?app_assoc; reflexivity.
Qed.

Lemma try_except_value {A} t (a : A) h :
  try_except (t, inl a) h = (t, inl a).
Proof. reflexivity. Qed.

End HandlerFacts.

(** C4: the flag computed by the header loop is [true] exactly when some
    [content-type] header value contains [text/event-stream]; and when it is
    [true] (and no call upstream fails), the handler relays the body as a
    sequence of chunks of 1 to 4096 bytes, each obtained by a [read(4096)],
    written and flushed at once, until a [read(4096)] returns nothing; the
    chunks together are the body, and the handler returns. *)
Theorem C4_streaming_relay (API_KEY : string) (net : network)
  (self : request) (method : string) (body : option bytes)
  (status : nat) (hs : list (string * string)) :
  let u :=
    net method (path self) body (outbound_headers API_KEY (headers self)) in
  result (forward_headers hs false) = inl (detectStreaming hs) /\
  (result (read_body self) = inl body ->
   up_request u = None ->
   up_response u = inl (status, hs) ->
   (forall k, up_read u k = None) ->
   detectStreaming hs = true ->
   exists chunks,
     _proxy_request API_KEY net self method =
       (exchange_events API_KEY self method body status hs
          ++ chunk_events chunks ++ [Read (Some 4096); Close],
        inl tt)
     /\ concat chunks = up_body u
     /\ Forall (fun c => 1 <= length c <= 4096) chunks).
Proof.
  intros u. split.
  - rewrite RelayFacts.forward_headers_eq. reflexivity.
  - intros Hbody Hreq Hresp Hread Hflag.
    destruct (RelayFacts.stream_loop_chunks u Hread
                (length (up_body u)) (up_body u) 0 (le_n _))
      as (chunks & Hloop & Hcat & Hall).
    exists chunks. split; [|split; assumption].
    rewrite (HandlerFacts.proxy_request_eq _ _ _ _ body Hbody).
    rewrite (HandlerFacts.try_body_response _ _ _ _ _ status hs Hreq Hresp).
    fold u. rewrite Hflag. unfold relay_body. rewrite Hloop.
    unfold bind, emit, after, try_except. cbn [fst snd].
    rewrite <- !app_assoc. reflexivity.
Qed.

Lemma C4_streaming_relay_witness :
  exists chunks,
    _proxy_request "sk-test" (constant_network sse_upstream) sample_request
      "GET" =
      (exchange_events "sk-test" sample_request "GET" None 200
         [("Content-Type", "text/event-stream")]
         ++ chunk_events chunks ++ [Read (Some 4096); Close],
       inl tt)
    /\ concat chunks = hi
    /\ Forall (fun c => 1 <= length c <= 4096) chunks.
Proof.
  apply (proj2 (C4_streaming_relay "sk-test" (constant_network sse_upstream)
                  sample_request "GET" None 200
                  [("Content-Type", "text/event-stream")])).
  - reflexivity.
  - reflexivity.
  - reflexivity.
  - intros k. reflexivity.
  - reflexivity.
Defined.

Module TraceFacts.

Lemma writes_app t t' : writes (t ++ t') = writes t ++ writes t'.
Proof.
  induction t as [|ev t IH]; simpl; [reflexivity|].
  destruct ev; simpl; rewrite IH; reflexivity.
Qed.

Lemma writes_send_headers (hs : list (string * string)) :
  writes (map (fun hv => SendHeader (fst hv) (snd hv)) hs) = [].
Proof. induction hs as [|hv hs IH]; simpl; auto. Qed.

Lemma writes_exchange_events API_KEY self method body status hs :
  writes (exchange_events API_KEY self method body status hs) = [].
Proof.
  unfold exchange_events. rewrite !writes_app, writes_send_headers.
  reflexivity.
Qed.

Lemma diagnostics_app t t' :
  diagnostics (t ++ t') = diagnostics t ++ diagnostics t'.
Proof.
  induction t as [|ev t IH]; simpl; [reflexivity|].
  destruct ev; simpl; rewrite IH; reflexivity.
Qed.

End TraceFacts.

(** C5: when no [content-type] header value of the upstream response
    contains [text/event-stream] (and no call upstream fails), the handler
    reads the whole body with one [read()] and then writes it to the caller
    with one [write], unchanged; nothing else is written as body. *)
Theorem C5_buffered_relay (API_KEY : string) (net : network)
  (self : request) (method : string) (body : option bytes)
  (status : nat) (hs : list (string * string)) :
  let u :=
    net method (path self) body (outbound_headers API_KEY (headers self)) in
  result (read_body self) = inl body ->
  up_request u = None ->
  up_response u = inl (status, hs) ->
  up_read u 0 = None ->
  detectStreaming hs = false ->
  _proxy_request API_KEY net self method =
    (exchange_events API_KEY self method body status hs
       ++ [Read None; Write (up_body u); Close],
     inl tt)
  /\ writes (events (_proxy_request API_KEY net self method)) = [up_body u].
Proof.
  intros u Hbody Hreq Hresp Hread Hflag.
  assert (E : _proxy_request API_KEY net self method =
    (exchange_events API_KEY self method body status hs
       ++ [Read None; Write (up_body u); Close],
     inl tt)).
  { rewrite (HandlerFacts.proxy_request_eq _ _ _ _ body Hbody).
    rewrite (HandlerFacts.try_body_response _ _ _ _ _ status hs Hreq Hresp).
    fold u. rewrite Hflag. unfold relay_body, response_read.
    rewrite Hread. reflexivity. }
  split; [exact E|].
  rewrite E. unfold events. cbn [fst].
  rewrite TraceFacts.writes_app, TraceFacts.writes_exchange_events.
  reflexivity.
Qed.

Lemma C5_buffered_relay_witness :
  writes
    (events
       (_proxy_request "sk-test" (constant_network json_upstream)
          sample_request "GET")) = [hi].
Proof.
  apply (proj2 (C5_buffered_relay "sk-test" (constant_network json_upstream)
                  sample_request "GET" None 200
                  [("Content-Type", "application/json")]
                  eq_refl eq_refl eq_refl eq_refl eq_refl)).
Defined.

(** C8: a pre-flight request is answered without any upstream action, with
    status 200 and exactly the three CORS headers. *)
Theorem C8_preflight (self : request) :
  do_OPTIONS self =
    ([Log ("[anthropic-proxy] " ++ requestline self ++ LF);
      SendResponse 200;
      SendHeader "Access-Control-Allow-Origin" "*";
      SendHeader "Access-Control-Allow-Methods" "GET, POST, OPTIONS";
      SendHeader "Access-Control-Allow-Headers" "*";
      EndHeaders],
     inl tt)
  /\ filter is_upstream (events (do_OPTIONS self)) = []
  /\ statuses (events (do_OPTIONS self)) = [200]
  /\ sent_headers (events (do_OPTIONS self)) =
       [("Access-Control-Allow-Origin", "*");
        ("Access-Control-Allow-Methods", "GET, POST, OPTIONS");
        ("Access-Control-Allow-Headers", "*")].
Proof.
  repeat split.
Qed.

(** ** Error paths (lines 107-114) *)

Module ErrorFacts.
Import RelayFacts.

Lemma except_clauses_caught self e :
  isinstance e Exception = true ->
  except_clauses self e =
  (error_events self (error_status e) (error_message e), inl tt).
Proof.
  intros H. unfold except_clauses, error_status, error_message.
  destruct (isinstance e HTTPException); [reflexivity|].
  destruct (isinstance e SSLError); [reflexivity|].
  destruct (isinstance e TimeoutError); [reflexivity|].
  rewrite H. reflexivity.
Qed.

Lemma error_status_range e : In (error_status e) [502; 504; 500].
Proof.
  unfold error_status.
  destruct (isinstance e HTTPException); [simpl; auto|].
  destruct (isinstance e SSLError); [simpl; auto|].
  destruct (isinstance e TimeoutError); simpl; auto.
Qed.

(** A connection that cannot be established is no [HTTPException], no
    [SSLError] and no [TimeoutError]: it reaches the last clause. *)
Lemma refused_status e :
  exn_class e = ConnectionRefusedError -> error_status e = 500.
Proof. unfold error_status, isinstance. intros ->. reflexivity. Qed.

Lemma timeout_status e :
  exn_class e = TimeoutError -> error_status e = 504.
Proof. unfold error_status, isinstance. intros ->. reflexivity. Qed.

Lemma ssl_status e :
  isinstance e SSLError = true -> error_status e = 502.
Proof.
  unfold error_status. intros ->.
  destruct (isinstance e HTTPException); reflexivity.
Qed.

Lemma stream_loop_quiet u : forall n rest k,
  length rest <= n ->
  forallb quiet (events (stream_loop u k rest)) = true.
Proof.
  induction n as [|n IH]; intros rest k Hlen;
    rewrite stream_loop_eq; unfold response_read;
    destruct (up_read u k); try reflexivity.
  - destruct rest; [|simpl in Hlen; lia].
    rewrite firstn_nil. reflexivity.
  - destruct rest as [|b0 rest]; [rewrite firstn_nil; reflexivity|].
    change 4096 with (S 4095) at 1 2.
    rewrite firstn_cons, skipn_cons.
    unfold after, events. cbn [fst forallb app].
    change (quiet (Read (Some (S 4095)))) with true.
    change (quiet (Write (b0 :: firstn 4095 rest))) with true.
    change (quiet Flush) with true. cbn [andb].
    apply IH. rewrite length_skipn. simpl in Hlen. lia.
Qed.

Lemma relay_body_quiet u flag :
  forallb quiet (events (relay_body u flag)) = true.
Proof.
  unfold relay_body. destruct flag.
  - apply (stream_loop_quiet u (length (up_body u))). apply le_n.
  - destruct (response_read u 0 None (up_body u)) as [[data rest]|e];
      reflexivity.
Qed.

Lemma send_headers_quiet (l : list (string * string)) :
  forallb quiet (map (fun hv => SendHeader (fst hv) (snd hv)) l) = true.
Proof. induction l as [|hv l IH]; [reflexivity|exact IH]. Qed.

Lemma exchange_events_tail_quiet API_KEY self method body status hs :
  forallb quiet (tl (exchange_events API_KEY self method body status hs))
  = true.
Proof.
  unfold exchange_events. cbn [tl app].
  do 4 (cbn [forallb]; apply andb_true_intro; split; [reflexivity|]).
  rewrite forallb_app. apply andb_true_intro. split.
  - apply send_headers_quiet.
  - reflexivity.
Qed.

(** A [try] block that raises has created the connection and has neither
    closed it nor sent an error response. *)
Lemma try_body_raises API_KEY net self method body e :
  result (try_body API_KEY net self method body) = inr e ->
  exists t,
    events (try_body API_KEY net self method body) =
      Connection ANTHROPIC_HOST ANTHROPIC_PORT 300 :: t
    /\ forallb quiet t = true.
Proof.
  destruct (up_request
              (net method (path self) body
                 (outbound_headers API_KEY (headers self)))) as [e1|] eqn:Hreq.
  - intros _. eexists. unfold try_body. cbv zeta. rewrite Hreq.
    split; reflexivity.
  - destruct (up_response
                (net method (path self) body
                   (outbound_headers API_KEY (headers self))))
      as [[status hs]|e2] eqn:Hresp.
    + rewrite (HandlerFacts.try_body_response _ _ _ _ _ status hs Hreq Hresp).
      pose proof (relay_body_quiet
                    (net method (path self) body
                       (outbound_headers API_KEY (headers self)))
                    (detectStreaming hs)) as Hq.
      pose proof (exchange_events_tail_quiet
                    API_KEY self method body status hs) as Hx.
      destruct (relay_body _ _) as [t [[]|e3]];
        unfold result, events, bind, emit, after; cbn [fst snd];
        [discriminate|].
      intros _.
      exists (tl (exchange_events API_KEY self method body status hs) ++ t).
      split; [reflexivity|].
      rewrite forallb_app, Hx. exact Hq.
    + intros _. eexists. unfold try_body. cbv zeta. rewrite Hreq, Hresp.
      split; reflexivity.
Qed.

Lemma error_after_bytes_app t : forall sent t',
  forallb quiet t = true ->
  error_after_bytes sent (t ++ t') =
  error_after_bytes (sent || existsb is_response_bytes t) t'.
Proof.
  induction t as [|ev t IH]; intros sent t' Hq.
  - simpl. rewrite orb_false_r. reflexivity.
  - cbn [forallb] in Hq. apply andb_prop in Hq. destruct Hq as [Hev Hq].
    cbn [app error_after_bytes existsb]. rewrite (IH _ _ Hq).
    unfold quiet in Hev. apply negb_true_iff in Hev.
    apply orb_false_iff in Hev. destruct Hev as [Hev _].
    apply orb_false_iff in Hev. destruct Hev as [Hev _].
    rewrite Hev, andb_false_r, orb_assoc. reflexivity.
Qed.

Lemma filter_quiet_close t :
  forallb quiet t = true -> filter is_close t = [].
Proof.
  induction t as [|ev t IH]; [reflexivity|].
  cbn [forallb filter]. intros H. apply andb_prop in H. destruct H as [Hev H].
  unfold quiet in Hev. apply negb_true_iff in Hev.
  apply orb_false_iff in Hev. destruct Hev as [Hev _].
  apply orb_false_iff in Hev. destruct Hev as [_ Hev].
  rewrite Hev. exact (IH H).
Qed.

End ErrorFacts.

(** C3 at a refused connection: [ConnectionRefusedError] is an [OSError]
    that none of the first three clauses names, so the caller gets status
    500 with a "Proxy error" message where the claim says 502. *)
Theorem C3_refused_connection_gets_500 :
  _proxy_request "sk-test" (constant_network refused_upstream) sample_request
    "GET" =
    ([Connection ANTHROPIC_HOST ANTHROPIC_PORT 300;
      SendRequest "GET" "/v1/models" None
        [("Host", "api.anthropic.com"); ("x-api-key", "sk-test");
         ("Accept", "*/*")]]
       ++ error_events sample_request 500
            "Proxy error: [Errno 111] Connection refused",
     inl tt)
  /\ statuses
       (events
          (_proxy_request "sk-test" (constant_network refused_upstream)
             sample_request "GET")) = [500].
Proof.
  split; reflexivity.
Qed.

(** C6 at an upstream that never answers: the handler creates one
    connection, sends the request, answers 504 and returns; [conn.close()]
    is never called. *)
Theorem C6_connection_left_open_on_timeout :
  filter is_connection
    (events (do_GET "sk-test" (constant_network silent_upstream)
               sample_request))
    = [Connection ANTHROPIC_HOST ANTHROPIC_PORT 300]
  /\ filter is_close
       (events (do_GET "sk-test" (constant_network silent_upstream)
                  sample_request)) = []
  /\ statuses
       (events (do_GET "sk-test" (constant_network silent_upstream)
                  sample_request)) = [504]
  /\ result (do_GET "sk-test" (constant_network silent_upstream)
               sample_request) = inl tt.
Proof.
  repeat split.
Qed.

(** The same on every error path: when the [try] block raises, the run of
    the handler holds no [Close]. *)
Lemma error_path_never_closes API_KEY net self method body e :
  result (read_body self) = inl body ->
  result (try_body API_KEY net self method body) = inr e ->
  isinstance e Exception = true ->
  filter is_close (events (_proxy_request API_KEY net self method)) = [].
Proof.
  intros Hbody Hraise Hcaught.
  rewrite (HandlerFacts.proxy_request_eq _ _ _ _ body Hbody).
  destruct (ErrorFacts.try_body_raises _ _ _ _ _ _ Hraise) as (t & Ht & Hq).
  destruct (try_body API_KEY net self method body) as [t0 r].
  unfold events, result in *. cbn [fst snd] in *. subst t0 r.
  unfold try_except.
  rewrite (ErrorFacts.except_clauses_caught self e Hcaught).
  cbn [fst app filter is_close]. rewrite filter_app.
  rewrite (ErrorFacts.filter_quiet_close t Hq). reflexivity.
Qed.

(** C7, as stated, fails: an event stream of 5000 bytes is cut off after
    its first 4096 bytes were relayed; the second [read(4096)] raises
    [IncompleteRead], and the handler sends a formatted 502 response after
    the status line, the headers and the first chunk. *)
Lemma C7_error_after_chunk_counterexample :
  events
    (do_GET "sk-test" (constant_network broken_stream_upstream)
       sample_request) =
    exchange_events "sk-test" sample_request "GET" None 200
      [("Content-Type", "text/event-stream")]
    ++ [Read (Some 4096); Write (repeat Byte.x61 4096); Flush;
        Read (Some 4096)]
    ++ error_events sample_request 502
         "Upstream error: IncompleteRead(904 bytes read)"
  /\ error_after_bytes false
       (events
          (do_GET "sk-test" (constant_network broken_stream_upstream)
             sample_request)) = true.
Proof.
  split; vm_compute; reflexivity.
Qed.

(** C7 (amended): the handler keeps no record of what it has sent.  Whenever
    a call on the upstream connection ([conn.request], [conn.getresponse],
    [response.read]) raises an [Exception], at whatever point of the [try]
    block, the [except] clauses call [send_error]; the caller's socket being
    writable, the formatted error response is appended to what was sent and
    the handler returns; that response follows bytes of the real response
    exactly when some had been written before the failure. *)
Theorem C7_error_response_always_emitted (API_KEY : string) (net : network)
  (self : request) (method : string) (body : option bytes) (e : exn) :
  result (read_body self) = inl body ->
  result (try_body API_KEY net self method body) = inr e ->
  isinstance e Exception = true ->
  _proxy_request API_KEY net self method =
    (events (try_body API_KEY net self method body)
       ++ error_events self (error_status e) (error_message e),
     inl tt)
  /\ error_after_bytes false
       (events (_proxy_request API_KEY net self method)) =
     existsb is_response_bytes
       (events (try_body API_KEY net self method body)).
Proof.
  intros Hbody Hraise Hcaught.
  assert (E : _proxy_request API_KEY net self method =
    (events (try_body API_KEY net self method body)
       ++ error_events self (error_status e) (error_message e),
     inl tt)).
  { rewrite (HandlerFacts.proxy_request_eq _ _ _ _ body Hbody).
    destruct (try_body API_KEY net self method body) as [t0 r].
    unfold events, result in *. cbn [fst snd] in *. subst r.
    unfold try_except.
    rewrite (ErrorFacts.except_clauses_caught self e Hcaught).
    reflexivity. }
  split; [exact E|].
  rewrite E. unfold events at 1. cbn [fst].
  destruct (ErrorFacts.try_body_raises _ _ _ _ _ _ Hraise) as (t & Ht & Hq).
  rewrite Ht.
  cbn [app error_after_bytes existsb is_send_error is_response_bytes
       andb orb].
  rewrite (ErrorFacts.error_after_bytes_app _ _ _ Hq).
  unfold error_events.
  cbn [error_after_bytes is_send_error is_response_bytes orb].
  rewrite !andb_false_r, !orb_false_r, andb_true_r. reflexivity.
Qed.

Lemma C7_error_response_always_emitted_witness :
  _proxy_request "sk-test" (constant_network broken_stream_upstream)
    sample_request "GET" =
    (events
       (try_body "sk-test" (constant_network broken_stream_upstream)
          sample_request "GET" None)
       ++ error_events sample_request 502
            "Upstream error: IncompleteRead(904 bytes read)",
     inl tt)
  /\ error_after_bytes false
       (events
          (_proxy_request "sk-test" (constant_network broken_stream_upstream)
             sample_request "GET")) =
     existsb is_response_bytes
       (events
          (try_body "sk-test" (constant_network broken_stream_upstream)
             sample_request "GET" None)).
Proof.
  apply (C7_error_response_always_emitted "sk-test"
           (constant_network broken_stream_upstream) sample_request "GET"
           None (Exn IncompleteRead "IncompleteRead(904 bytes read)")).
  - reflexivity.
  - vm_compute. reflexivity.
  - reflexivity.
Defined.

(** ** Diagnostics (lines 40-42 and 107-114) *)

Module DiagnosticFacts.
Import RelayFacts TraceFacts.

(** What the [try] block does once the request has been handed to
    [conn.request]: it depends on the upstream behaviour only. *)
Definition after_request (self : request) (u : upstream) : M unit :=
  match up_request u with
  | Some e => raise e
  | None =>
      emit GetResponse ;;
      match up_response u with
      | inr e => raise e
      | inl (status, response_headers) =>
          send_response self status ;;
          is_streaming <- forward_headers response_headers false ;;
          emit EndHeaders ;;
          relay_body u is_streaming ;;
          emit Close
      end
  end.

Lemma try_body_split API_KEY net self method body :
  try_body API_KEY net self method body =
  after
    [Connection ANTHROPIC_HOST ANTHROPIC_PORT 300;
     SendRequest method (path self) body
       (outbound_headers API_KEY (headers self))]
    (after_request self
       (net method (path self) body
          (outbound_headers API_KEY (headers self)))).
Proof.
  unfold try_body, after_request. cbv zeta.
  rewrite !bind_emit, after_after. reflexivity.
Qed.

Lemma try_except_after {A} t (m : M A) h :
  try_except (after t m) h = after t (try_except m h).
Proof.
  unfold try_except, after. destruct m as [t' [a|e]]; cbn [fst snd].
  - reflexivity.
  - destruct (h e). cbn [fst snd]. rewrite app_assoc. reflexivity.
Qed.

(** The diagnostics of a run of the handler, whatever the credential. *)
Lemma proxy_request_diagnostics API_KEY net self method :
  diagnostics (events (_proxy_request API_KEY net self method)) =
  match result (read_body self) with
  | inr _ => []
  | inl body =>
      diagnostics
        (events
           (try_except
              (after_request self
                 (net method (path self) body
                    (outbound_headers API_KEY (headers self))))
              (except_clauses self)))
  end.
Proof.
  destruct (result (read_body self)) as [body|e] eqn:Hbody.
  - rewrite (HandlerFacts.proxy_request_eq _ _ _ _ body Hbody).
    rewrite try_body_split, try_except_after.
    unfold after, events. cbn [fst]. rewrite diagnostics_app. reflexivity.
  - unfold _proxy_request.
    pose proof (HandlerFacts.read_body_events self) as Hev.
    destruct (read_body self) as [t r].
    unfold events, result in *. cbn [fst snd] in *. subst t r.
    reflexivity.
Qed.

End DiagnosticFacts.

(** C9 at a credential that ends in a line feed: [http.client] refuses the
    header value and quotes it in the text of its [ValueError]; line 114
    puts that text into the error message, so the caller is sent the
    credential (its line feed written as an escape) where the claim says
    that no error message contains it. *)
Theorem C9_credential_in_error_message :
  diagnostics
    (events
       (do_GET ("sk-test" ++ LF)%string (http_client json_upstream)
          sample_request)) =
    [("[anthropic-proxy] 500" ++ LF)%string;
     ("[anthropic-proxy] GET /v1/models HTTP/1.1" ++ LF)%string;
     "Proxy error: Invalid header value b'sk-test\n'"]
  /\ statuses
       (events
          (do_GET ("sk-test" ++ LF)%string (http_client json_upstream)
             sample_request)) = [500]
  /\ Py.contains "sk-test"
       "Proxy error: Invalid header value b'sk-test\n'" = true.
Proof.
  repeat split.
Qed.

(** X17: what the handler itself writes into log lines and error messages
    does not depend on the configured credential: for two credentials under
    which the upstream calls behave alike (they raise the same exceptions
    with the same text and return the same response), the runs emit the
    same log lines and error messages. *)
Theorem diagnostics_independent_of_credential (API_KEY k' : string)
  (net : network) (self : request) (method : string) :
  (forall body,
     net method (path self) body (outbound_headers API_KEY (headers self)) =
     net method (path self) body (outbound_headers k' (headers self))) ->
  diagnostics (events (_proxy_request API_KEY net self method)) =
  diagnostics (events (_proxy_request k' net self method)).
Proof.
  intros Hnet.
  rewrite !DiagnosticFacts.proxy_request_diagnostics.
  destruct (result (read_body self)) as [body|e]; [|reflexivity].
  rewrite (Hnet body). reflexivity.
Qed.

Lemma diagnostics_independent_of_credential_witness :
  diagnostics
    (events
       (_proxy_request "sk-test" (constant_network refused_upstream)
          sample_request "GET")) =
  diagnostics
    (events
       (_proxy_request EmptyString (constant_network refused_upstream)
          sample_request "GET")).
Proof.
  apply (diagnostics_independent_of_credential "sk-test"
           EmptyString (constant_network refused_upstream)
           sample_request "GET" (fun body => eq_refl)).
Defined.

(** ** The request body (lines 47-50) *)

(** C10, as stated, fails: an empty [Content-Length] value is no integer,
    yet line 49 tests the value for truth, so nothing is parsed, nothing is
    raised and the request is relayed without a body. *)
Lemma C10_empty_value_counterexample :
  headers_get [("Content-Length", EmptyString)] "Content-Length"
    = Some EmptyString
  /\ Py.int EmptyString = inr "invalid literal for int() with base 10: ''"
  /\ result (read_body
               (Request "POST /v1/messages HTTP/1.1" "/v1/messages"
                  [("Content-Length", EmptyString)] hi)) = inl None
  /\ statuses
       (events
          (do_POST "sk-test" (constant_network json_upstream)
             (Request "POST /v1/messages HTTP/1.1" "/v1/messages"
                [("Content-Length", EmptyString)] hi))) = [200]
  /\ result
       (do_POST "sk-test" (constant_network json_upstream)
          (Request "POST /v1/messages HTTP/1.1" "/v1/messages"
             [("Content-Length", EmptyString)] hi)) = inl tt.
Proof.
  repeat split.
Qed.

(** C10 (amended): when the first [Content-Length] header has a non-empty
    value that [int()] rejects, the [ValueError] of [int()] is raised before
    the [try] block: the handler raises it to its caller and has done
    nothing, neither upstream nor towards the caller, so it sends no error
    status (none of the 500, 502, 504 translations applies). *)
Theorem C10_invalid_content_length (API_KEY : string) (net : network)
  (self : request) (method : string) (v message : string) :
  headers_get (headers self) "Content-Length" = Some v ->
  Py.truthy v = true ->
  Py.int v = inr message ->
  _proxy_request API_KEY net self method =
    ([], inr (Exn ValueError message))
  /\ filter is_send_error (events (_proxy_request API_KEY net self method))
     = [].
Proof.
  intros Hget Htrue Hint.
  assert (E : _proxy_request API_KEY net self method =
    ([], inr (Exn ValueError message))).
  { unfold _proxy_request, read_body.
    rewrite Hget. cbn [Py.truthy_opt]. rewrite Htrue, Hint. reflexivity. }
  split; [exact E|]. rewrite E. reflexivity.
Qed.

Lemma C10_invalid_content_length_witness :
  _proxy_request "sk-test" (constant_network json_upstream)
    (Request "POST /v1/messages HTTP/1.1" "/v1/messages"
       [("Content-Length", "abc")] hi) "POST" =
    ([], inr (Exn ValueError "invalid literal for int() with base 10: 'abc'")).
Proof.
  apply (proj1 (C10_invalid_content_length "sk-test"
                  (constant_network json_upstream)
                  (Request "POST /v1/messages HTTP/1.1" "/v1/messages"
                     [("Content-Length", "abc")] hi) "POST" "abc"
                  "invalid literal for int() with base 10: 'abc'"
                  eq_refl eq_refl eq_refl)).
Defined.

(** * Further properties of the handler and the server *)

(** ** The shape of a run *)

Module RunFacts.
Import RelayFacts.

(** The three named clauses only catch instances of [Exception]. *)
Lemma not_exception e :
  isinstance e Exception = false ->
  isinstance e HTTPException = false
  /\ isinstance e SSLError = false
  /\ isinstance e TimeoutError = false.
Proof.
  unfold isinstance. destruct e as [c s]. cbn [exn_class].
  destruct c; cbn; intros H; try discriminate H; repeat split.
Qed.

Lemma except_clauses_eq self e :
  except_clauses self e =
  (handled self e, if isinstance e Exception then inl tt else inr e).
Proof.
  unfold handled. destruct (isinstance e Exception) eqn:H.
  - apply ErrorFacts.except_clauses_caught. exact H.
  - unfold except_clauses.
    destruct (not_exception e H) as (H1 & H2 & H3).
    rewrite H1, H2, H3, H. reflexivity.
Qed.

Lemma try_body_request_fails API_KEY net self method body e :
  up_request
    (net method (path self) body (outbound_headers API_KEY (headers self)))
    = Some e ->
  try_body API_KEY net self method body =
  ([Connection ANTHROPIC_HOST ANTHROPIC_PORT 300;
    SendRequest method (path self) body
      (outbound_headers API_KEY (headers self))], inr e).
Proof.
  intros H. unfold try_body. cbv zeta. rewrite H. reflexivity.
Qed.

Lemma try_body_response_fails API_KEY net self method body e :
  up_request
    (net method (path self) body (outbound_headers API_KEY (headers self)))
    = None ->
  up_response
    (net method (path self) body (outbound_headers API_KEY (headers self)))
    = inr e ->
  try_body API_KEY net self method body =
  ([Connection ANTHROPIC_HOST ANTHROPIC_PORT 300;
    SendRequest method (path self) body
      (outbound_headers API_KEY (headers self));
    GetResponse], inr e).
Proof.
  intros H1 H2. unfold try_body. cbv zeta. rewrite H1, H2. reflexivity.
Qed.

(** The events of a run, and how it ends: it returns unless something that
    is no [Exception] was raised inside the [try] block. *)
Lemma proxy_request_run API_KEY net self method body :
  result (read_body self) = inl body ->
  events (_proxy_request API_KEY net self method) =
    run_events API_KEY net self method body
  /\ result (_proxy_request API_KEY net self method) =
     match result (try_body API_KEY net self method body) with
     | inl _ => inl tt
     | inr e => if isinstance e Exception then inl tt else inr e
     end.
Proof.
  intros Hbody.
  rewrite (HandlerFacts.proxy_request_eq _ _ _ _ body Hbody).
  unfold run_events. cbv zeta.
  destruct (up_request
              (net method (path self) body
                 (outbound_headers API_KEY (headers self)))) as [e|] eqn:Hreq.
  - rewrite (try_body_request_fails _ _ _ _ _ e Hreq).
    unfold try_except. rewrite except_clauses_eq. split; reflexivity.
  - destruct (up_response
                (net method (path self) body
                   (outbound_headers API_KEY (headers self))))
      as [[status hs]|e] eqn:Hresp.
    + rewrite (HandlerFacts.try_body_response _ _ _ _ _ status hs Hreq Hresp).
      unfold exchange_events.
      destruct (relay_body _ _) as [t [[]|e]];
        unfold bind, emit, after, try_except, events, result;
        cbn [fst snd]; rewrite ?except_clauses_eq; cbn [fst snd];
        rewrite <- ?app_assoc; split; reflexivity.
    + rewrite (try_body_response_fails _ _ _ _ _ e Hreq Hresp).
      unfold try_except. rewrite except_clauses_eq. split; reflexivity.
Qed.

(** A run that fails to read the request body does nothing visible. *)
Lemma proxy_request_no_body API_KEY net self method e :
  result (read_body self) = inr e ->
  _proxy_request API_KEY net self method = ([], inr e).
Proof.
  intros H. unfold _proxy_request.
  pose proof (HandlerFacts.read_body_events self) as Hev.
  destruct (read_body self) as [t r].
  unfold events, result in *. cbn [fst snd] in *. subst t r. reflexivity.
Qed.

End RunFacts.

(** ** The streaming loop under failures (lines 95-100) *)

Module StreamFacts.
Import RelayFacts.

Lemma stream_loop_trace u : forall n rest k,
  length rest <= n ->
  exists chunks suffix,
    events (stream_loop u k rest) = chunk_events chunks ++ [Read (Some 4096)]
    /\ concat chunks ++ suffix = rest
    /\ Forall (fun c => 1 <= length c <= 4096) chunks
    /\ (forall j, j < length chunks -> up_read u (k + j) = None)
    /\ match result (stream_loop u k rest) with
       | inl _ => suffix = [] /\ up_read u (k + length chunks) = None
       | inr e => up_read u (k + length chunks) = Some e
       end.
Proof.
  assert (Hfail : forall rest k e, up_read u k = Some e ->
    exists chunks suffix,
      events (stream_loop u k rest) = chunk_events chunks ++ [Read (Some 4096)]
      /\ concat chunks ++ suffix = rest
      /\ Forall (fun c => 1 <= length c <= 4096) chunks
      /\ (forall j, j < length chunks -> up_read u (k + j) = None)
      /\ match result (stream_loop u k rest) with
         | inl _ => suffix = [] /\ up_read u (k + length chunks) = None
         | inr e => up_read u (k + length chunks) = Some e
         end).
  { intros rest k e He. exists [], rest.
    rewrite stream_loop_eq. unfold response_read. rewrite He.
    cbn [events result fst snd chunk_events flat_map app concat length].
    rewrite Nat.add_0_r.
    repeat split; auto. intros j Hj. inversion Hj. }
  assert (Hend : forall k, up_read u k = None ->
    exists chunks suffix,
      events (stream_loop u k []) = chunk_events chunks ++ [Read (Some 4096)]
      /\ concat chunks ++ suffix = []
      /\ Forall (fun c => 1 <= length c <= 4096) chunks
      /\ (forall j, j < length chunks -> up_read u (k + j) = None)
      /\ match result (stream_loop u k []) with
         | inl _ => suffix = [] /\ up_read u (k + length chunks) = None
         | inr e => up_read u (k + length chunks) = Some e
         end).
  { intros k Hk. exists [], [].
    rewrite stream_loop_eq. unfold response_read. rewrite Hk, firstn_nil.
    cbn [events result fst snd chunk_events flat_map app concat length].
    rewrite Nat.add_0_r.
    repeat split; auto. intros j Hj. inversion Hj. }
  induction n as [|n IH]; intros rest k Hlen;
    destruct (up_read u k) as [e|] eqn:Hk;
    try (apply (Hfail rest k e Hk)).
  - destruct rest; [|simpl in Hlen; lia]. apply (Hend k Hk).
  - destruct rest as [|b0 rest]; [apply (Hend k Hk)|].
    destruct (IH (skipn 4095 rest) (S k))
      as (chunks & suffix & Hev & Hcat & Hall & Hok & Hres).
    { rewrite length_skipn. simpl in Hlen. lia. }
    exists ((b0 :: firstn 4095 rest) :: chunks), suffix.
    rewrite stream_loop_eq. unfold response_read. rewrite Hk.
    change 4096 with (S 4095) at 1 2.
    rewrite firstn_cons, skipn_cons.
    unfold after, events, result in *. cbn [fst snd] in *.
    rewrite Hev. split; [reflexivity|]. split; [|split; [|split]].
    + cbn [concat app]. rewrite <- app_assoc, Hcat, firstn_skipn.
      reflexivity.
    + constructor; [|exact Hall].
      pose proof (firstn_le_length 4095 rest). cbn [length]. lia.
    + intros [|j] Hj.
      * rewrite Nat.add_0_r. exact Hk.
      * rewrite Nat.add_succ_r. apply (Hok j). cbn [length] in Hj. lia.
    + cbn [length]. rewrite Nat.add_succ_r. exact Hres.
Qed.

Lemma chunk_events_body chunks :
  forallb is_body_event (chunk_events chunks) = true.
Proof. induction chunks as [|c chunks IH]; [reflexivity|exact IH]. Qed.

Lemma writes_chunk_events chunks : writes (chunk_events chunks) = chunks.
Proof.
  induction chunks as [|c chunks IH]; [reflexivity|].
  cbn [chunk_events flat_map app writes]. fold (chunk_events chunks).
  rewrite IH. reflexivity.
Qed.

Lemma relay_body_events_body u flag :
  forallb is_body_event (events (relay_body u flag)) = true.
Proof.
  unfold relay_body. destruct flag.
  - destruct (stream_loop_trace u (length (up_body u)) (up_body u) 0 (le_n _))
      as (chunks & suffix & Hev & _).
    rewrite Hev, forallb_app, chunk_events_body. reflexivity.
  - destruct (response_read u 0 None (up_body u)) as [[data rest]|e];
      reflexivity.
Qed.

(** What the body relay writes is a prefix of the upstream body, and the
    whole body when the relay returns. *)
Lemma relay_body_writes u flag :
  exists suffix,
    concat (writes (events (relay_body u flag))) ++ suffix = up_body u
    /\ (forall x, result (relay_body u flag) = inl x -> suffix = []).
Proof.
  unfold relay_body. destruct flag.
  - destruct (stream_loop_trace u (length (up_body u)) (up_body u) 0 (le_n _))
      as (chunks & suffix & Hev & Hcat & _ & _ & Hres).
    exists suffix. rewrite Hev, TraceFacts.writes_app, writes_chunk_events.
    cbn [writes]. rewrite app_nil_r. split; [exact Hcat|].
    intros x Hx. rewrite Hx in Hres. apply Hres.
  - unfold response_read. destruct (up_read u 0).
    + exists (up_body u). split; [reflexivity|]. intros x Hx. discriminate Hx.
    + exists []. split; [|reflexivity].
      cbn [events fst writes concat]. rewrite !app_nil_r. reflexivity.
Qed.

End StreamFacts.

(** ** Views of the parts of a run *)

Module ViewFacts.

Lemma logs_app t t' : logs (t ++ t') = logs t ++ logs t'.
Proof.
  induction t as [|ev t IH]; [reflexivity|].
  destruct ev; cbn [app logs]; rewrite IH; reflexivity.
Qed.

Lemma statuses_app t t' : statuses (t ++ t') = statuses t ++ statuses t'.
Proof.
  induction t as [|ev t IH]; [reflexivity|].
  destruct ev; cbn [app statuses]; rewrite IH; reflexivity.
Qed.

Lemma sent_headers_app t t' :
  sent_headers (t ++ t') = sent_headers t ++ sent_headers t'.
Proof.
  induction t as [|ev t IH]; [reflexivity|].
  destruct ev; cbn [app sent_headers]; rewrite IH; reflexivity.
Qed.

(** The body relay only reads, writes and flushes. *)
Lemma body_events_views t :
  forallb is_body_event t = true ->
  logs t = [] /\ statuses t = [] /\ sent_headers t = []
  /\ filter is_close t = [] /\ filter is_upstream_call t = []
  /\ filter is_send_error t = [].
Proof.
  induction t as [|ev t IH]; [repeat split|].
  cbn [forallb]. intros H. apply andb_prop in H. destruct H as [Hev H].
  destruct (IH H) as (H1 & H2 & H3 & H4 & H5 & H6).
  destruct ev; try discriminate Hev; cbn; repeat split; assumption.
Qed.

Lemma send_header_events_views (l : list (string * string)) :
  let t := map (fun hv => SendHeader (fst hv) (snd hv)) l in
  logs t = [] /\ statuses t = [] /\ sent_headers t = l
  /\ writes t = [] /\ filter is_close t = []
  /\ filter is_upstream_call t = [] /\ filter is_send_error t = [].
Proof.
  induction l as [|[k v] l IH]; [repeat split|].
  destruct IH as (H1 & H2 & H3 & H4 & H5 & H6 & H7).
  cbn. rewrite H3. repeat split; assumption.
Qed.

Lemma handled_views self e :
  writes (handled self e) = [] /\ sent_headers (handled self e) = []
  /\ filter is_close (handled self e) = []
  /\ filter is_upstream_call (handled self e) = []
  /\ statuses (handled self e) =
     (if isinstance e Exception then [error_status e] else [])
  /\ logs (handled self e) =
     (if isinstance e Exception
      then [("[anthropic-proxy] " ++ Py.str_of_nat (error_status e) ++ LF)
              %string;
            ("[anthropic-proxy] " ++ requestline self ++ LF)%string]
      else []).
Proof.
  unfold handled. destruct (isinstance e Exception); repeat split.
Qed.

End ViewFacts.

Module RunViews.
Import RunFacts ViewFacts.

(** How the [try] block ends. *)
Lemma try_body_result API_KEY net self method body :
  result (try_body API_KEY net self method body) =
  match up_request
          (net method (path self) body
             (outbound_headers API_KEY (headers self))) with
  | Some e => inr e
  | None =>
      match up_response
              (net method (path self) body
                 (outbound_headers API_KEY (headers self))) with
      | inr e => inr e
      | inl (status, hs) =>
          match result
                  (relay_body
                     (net method (path self) body
                        (outbound_headers API_KEY (headers self)))
                     (detectStreaming hs)) with
          | inl _ => inl tt
          | inr e => inr e
          end
      end
  end.
Proof.
  destruct (up_request _) as [e|] eqn:Hreq.
  - rewrite (try_body_request_fails _ _ _ _ _ e Hreq). reflexivity.
  - destruct (up_response _) as [[status hs]|e] eqn:Hresp.
    + rewrite (HandlerFacts.try_body_response _ _ _ _ _ status hs Hreq Hresp).
      destruct (relay_body _ _) as [t [[]|e]]; reflexivity.
    + rewrite (try_body_response_fails _ _ _ _ _ e Hreq Hresp). reflexivity.
Qed.

End RunViews.

(** ** One connection, one request, one close *)

(** X3: a run that has read the request body creates the upstream
    connection once, to the fixed host and port with the 300 s timeout, and
    sends one request, which carries the method, the path and the body
    unchanged and the rewritten headers, whatever happens afterwards. *)
Theorem upstream_called_once (API_KEY : string) (net : network)
  (self : request) (method : string) (body : option bytes) :
  result (read_body self) = inl body ->
  filter is_upstream_call (events (_proxy_request API_KEY net self method)) =
  [Connection ANTHROPIC_HOST ANTHROPIC_PORT 300;
   SendRequest method (path self) body
     (outbound_headers API_KEY (headers self))].
Proof.
  intros Hbody.
  rewrite (proj1 (RunFacts.proxy_request_run _ _ _ _ body Hbody)).
  unfold run_events. cbv zeta. rewrite filter_app.
  cbn [filter is_upstream_call app]. do 2 f_equal.
  destruct (up_request _) as [e|];
    [apply (ViewFacts.handled_views self e)|].
  cbn [filter is_upstream_call].
  destruct (up_response _) as [[status hs]|e];
    [|apply (ViewFacts.handled_views self e)].
  cbn [filter is_upstream_call app]. rewrite !filter_app.
  cbn [filter is_upstream_call app]. rewrite ?filter_app.
  destruct (ViewFacts.send_header_events_views
              (filter
                 (fun hv =>
                    negb (mem (Py.lower (fst hv)) SKIP_RESPONSE_HEADERS)) hs))
    as (_ & _ & _ & _ & _ & Hh & _).
  rewrite Hh.
  destruct (ViewFacts.body_events_views _
              (StreamFacts.relay_body_events_body
                 (net method (path self) body
                    (outbound_headers API_KEY (headers self)))
                 (detectStreaming hs)))
    as (_ & _ & _ & _ & Hb & _).
  rewrite Hb. cbn [app].
  destruct (result (relay_body _ _)) as [x|e];
    [reflexivity|apply (ViewFacts.handled_views self e)].
Qed.

Lemma upstream_called_once_witness :
  filter is_upstream_call
    (events
       (_proxy_request "sk-test" (constant_network broken_stream_upstream)
          sample_request "GET")) =
  [Connection ANTHROPIC_HOST ANTHROPIC_PORT 300;
   SendRequest "GET" "/v1/models" None
     (outbound_headers "sk-test" (headers sample_request))].
Proof.
  exact (upstream_called_once "sk-test"
           (constant_network broken_stream_upstream) sample_request "GET"
           None eq_refl).
Defined.

(** X4: [conn.close()] is called exactly when the [try] block runs to its
    end: once, as the last upstream action; a run whose [try] block raises
    never closes the connection. *)
Theorem connection_closed_iff_success (API_KEY : string) (net : network)
  (self : request) (method : string) (body : option bytes) :
  result (read_body self) = inl body ->
  filter is_close (events (_proxy_request API_KEY net self method)) =
  match result (try_body API_KEY net self method body) with
  | inl _ => [Close]
  | inr _ => []
  end.
Proof.
  intros Hbody.
  rewrite (proj1 (RunFacts.proxy_request_run _ _ _ _ body Hbody)).
  rewrite RunViews.try_body_result.
  unfold run_events. cbv zeta. rewrite filter_app.
  cbn [filter is_close app].
  destruct (up_request _) as [e|];
    [apply (ViewFacts.handled_views self e)|].
  cbn [filter is_close].
  destruct (up_response _) as [[status hs]|e];
    [|apply (ViewFacts.handled_views self e)].
  cbn [filter is_close app]. rewrite !filter_app.
  cbn [filter is_close app]. rewrite ?filter_app.
  destruct (ViewFacts.send_header_events_views
              (filter
                 (fun hv =>
                    negb (mem (Py.lower (fst hv)) SKIP_RESPONSE_HEADERS)) hs))
    as (_ & _ & _ & _ & Hh & _).
  rewrite Hh.
  destruct (ViewFacts.body_events_views _
              (StreamFacts.relay_body_events_body
                 (net method (path self) body
                    (outbound_headers API_KEY (headers self)))
                 (detectStreaming hs)))
    as (_ & _ & _ & Hb & _).
  rewrite Hb. cbn [app].
  destruct (result (relay_body _ _)) as [x|e];
    [reflexivity|apply (ViewFacts.handled_views self e)].
Qed.

Lemma connection_closed_iff_success_witness :
  filter is_close
    (events
       (_proxy_request "sk-test" (constant_network sse_upstream)
          sample_request "GET")) = [Close].
Proof.
  exact (connection_closed_iff_success "sk-test"
           (constant_network sse_upstream) sample_request "GET" None eq_refl).
Defined.

(** ** The response head (lines 76-90) *)

(** X5: once upstream has answered, the headers sent to the caller are the
    upstream headers in their order, with their spelling and their
    duplicates, without those named [transfer-encoding] or [connection] in
    any case; this holds whether or not the body relay succeeds. *)
Theorem response_headers_relayed (API_KEY : string) (net : network)
  (self : request) (method : string) (body : option bytes)
  (status : nat) (hs : list (string * string)) :
  result (read_body self) = inl body ->
  up_request
    (net method (path self) body (outbound_headers API_KEY (headers self)))
    = None ->
  up_response
    (net method (path self) body (outbound_headers API_KEY (headers self)))
    = inl (status, hs) ->
  sent_headers (events (_proxy_request API_KEY net self method)) =
    filter (fun hv => negb (mem (Py.lower (fst hv)) SKIP_RESPONSE_HEADERS)) hs
  /\ Forall
       (fun hv => mem (Py.lower (fst hv)) SKIP_RESPONSE_HEADERS = false)
       (sent_headers (events (_proxy_request API_KEY net self method))).
Proof.
  intros Hbody Hreq Hresp.
  assert (E : sent_headers (events (_proxy_request API_KEY net self method)) =
    filter (fun hv => negb (mem (Py.lower (fst hv)) SKIP_RESPONSE_HEADERS))
      hs).
  { rewrite (proj1 (RunFacts.proxy_request_run _ _ _ _ body Hbody)).
    unfold run_events. cbv zeta. rewrite Hreq, Hresp.
    cbn [app sent_headers].
    rewrite !ViewFacts.sent_headers_app.
    cbn [app sent_headers]. rewrite ?ViewFacts.sent_headers_app.
    destruct (ViewFacts.send_header_events_views
                (filter
                   (fun hv =>
                      negb (mem (Py.lower (fst hv)) SKIP_RESPONSE_HEADERS))
                   hs))
      as (_ & _ & Hh & _).
    rewrite Hh.
    destruct (ViewFacts.body_events_views _
                (StreamFacts.relay_body_events_body
                   (net method (path self) body
                      (outbound_headers API_KEY (headers self)))
                   (detectStreaming hs)))
      as (_ & _ & Hb & _).
    rewrite Hb. cbn [app sent_headers].
    destruct (result (relay_body _ _)) as [x|e].
    - cbn [sent_headers]. rewrite app_nil_r. reflexivity.
    - rewrite (proj1 (proj2 (ViewFacts.handled_views self e))).
      rewrite app_nil_r. reflexivity. }
  split; [exact E|].
  rewrite E. apply Forall_forall. intros hv Hin.
  apply filter_In in Hin. destruct Hin as [_ Hin].
  apply negb_true_iff in Hin. exact Hin.
Qed.

Lemma response_headers_relayed_witness :
  sent_headers
    (events
       (_proxy_request "sk-test"
          (constant_network
             (Upstream None
                (inl (200, [("Connection", "keep-alive");
                            ("Set-Cookie", "a=1");
                            ("Transfer-Encoding", "chunked");
                            ("Set-Cookie", "b=2")]))
                hi (fun _ => None)))
          sample_request "GET")) =
  [("Set-Cookie", "a=1"); ("Set-Cookie", "b=2")].
Proof.
  exact (proj1 (response_headers_relayed "sk-test"
                  (constant_network
                     (Upstream None
                        (inl (200, [("Connection", "keep-alive");
                                    ("Set-Cookie", "a=1");
                                    ("Transfer-Encoding", "chunked");
                                    ("Set-Cookie", "b=2")]))
                        hi (fun _ => None)))
                  sample_request "GET" None 200 _ eq_refl eq_refl eq_refl)).
Defined.

(** X6: once upstream has answered, the first status sent to the caller is
    the upstream status, whatever its value; at most one more status
    follows, the error status of a failure of the body relay, and none
    follows when the [try] block runs to its end. *)
Theorem upstream_status_forwarded (API_KEY : string) (net : network)
  (self : request) (method : string) (body : option bytes)
  (status : nat) (hs : list (string * string)) :
  result (read_body self) = inl body ->
  up_request
    (net method (path self) body (outbound_headers API_KEY (headers self)))
    = None ->
  up_response
    (net method (path self) body (outbound_headers API_KEY (headers self)))
    = inl (status, hs) ->
  exists tail,
    statuses (events (_proxy_request API_KEY net self method)) = status :: tail
    /\ length tail <= 1
    /\ Forall (fun code => In code [502; 504; 500]) tail
    /\ (result (try_body API_KEY net self method body) = inl tt -> tail = []).
Proof.
  intros Hbody Hreq Hresp.
  rewrite (proj1 (RunFacts.proxy_request_run _ _ _ _ body Hbody)).
  rewrite RunViews.try_body_result.
  unfold run_events. cbv zeta. rewrite Hreq, Hresp.
  cbn [app statuses].
  rewrite !ViewFacts.statuses_app.
  cbn [app statuses]. rewrite ?ViewFacts.statuses_app.
  destruct (ViewFacts.send_header_events_views
              (filter
                 (fun hv =>
                    negb (mem (Py.lower (fst hv)) SKIP_RESPONSE_HEADERS)) hs))
    as (_ & Hh & _).
  rewrite Hh.
  destruct (ViewFacts.body_events_views _
              (StreamFacts.relay_body_events_body
                 (net method (path self) body
                    (outbound_headers API_KEY (headers self)))
                 (detectStreaming hs)))
    as (_ & Hb & _).
  rewrite Hb. cbn [app statuses].
  destruct (result (relay_body _ _)) as [x|e].
  - exists []. split; [reflexivity|]. split; [apply Nat.le_0_l|].
    split; [constructor|reflexivity].
  - destruct (ViewFacts.handled_views self e) as (_ & _ & _ & _ & Hs & _).
    rewrite Hs. destruct (isinstance e Exception).
    + exists [error_status e]. split; [reflexivity|]. split; [apply le_n|].
      split.
      * constructor; [apply ErrorFacts.error_status_range|constructor].
      * intros H. discriminate H.
    + exists []. split; [reflexivity|]. split; [apply Nat.le_0_l|].
      split; [constructor|]. intros H. discriminate H.
Qed.

Lemma upstream_status_forwarded_witness :
  exists tail,
    statuses
      (events
         (_proxy_request "sk-test" (constant_network broken_stream_upstream)
            sample_request "GET")) = 200 :: tail
    /\ length tail <= 1
    /\ Forall (fun code => In code [502; 504; 500]) tail
    /\ (result
          (try_body "sk-test" (constant_network broken_stream_upstream)
             sample_request "GET" None) = inl tt -> tail = []).
Proof.
  exact (upstream_status_forwarded "sk-test"
           (constant_network broken_stream_upstream) sample_request "GET"
           None 200 _ eq_refl eq_refl eq_refl).
Defined.

(** ** The body relay under failures (lines 92-103) *)

(** X7: in either mode and whatever fails, the bytes written to the caller
    are, in order, a prefix of the upstream body; they are the whole body
    when the [try] block runs to its end. *)
Theorem caller_receives_prefix_of_body (API_KEY : string) (net : network)
  (self : request) (method : string) (body : option bytes) :
  result (read_body self) = inl body ->
  exists suffix,
    concat (writes (events (_proxy_request API_KEY net self method)))
      ++ suffix =
    up_body
      (net method (path self) body (outbound_headers API_KEY (headers self)))
    /\ (result (try_body API_KEY net self method body) = inl tt ->
        suffix = []).
Proof.
  intros Hbody.
  rewrite (proj1 (RunFacts.proxy_request_run _ _ _ _ body Hbody)).
  rewrite RunViews.try_body_result.
  unfold run_events. cbv zeta.
  rewrite TraceFacts.writes_app. cbn [writes app].
  destruct (up_request _) as [e|].
  - rewrite (proj1 (ViewFacts.handled_views self e)).
    eexists. split; [reflexivity|]. intros H. discriminate H.
  - cbn [writes].
    destruct (up_response _) as [[status hs]|e].
    + cbn [app writes]. rewrite !TraceFacts.writes_app.
      cbn [app writes]. rewrite ?TraceFacts.writes_app.
      destruct (ViewFacts.send_header_events_views
                  (filter
                     (fun hv =>
                        negb (mem (Py.lower (fst hv)) SKIP_RESPONSE_HEADERS))
                     hs))
        as (_ & _ & _ & Hh & _).
      rewrite Hh. cbn [app].
      destruct (StreamFacts.relay_body_writes
                  (net method (path self) body
                     (outbound_headers API_KEY (headers self)))
                  (detectStreaming hs)) as (suffix & Hcat & Hall).
      exists suffix.
      destruct (result (relay_body _ _)) as [x|e].
      * cbn [writes]. rewrite app_nil_r.
        split; [exact Hcat|]. intros _. apply (Hall x eq_refl).
      * rewrite (proj1 (ViewFacts.handled_views self e)), app_nil_r.
        split; [exact Hcat|]. intros H. discriminate H.
    + rewrite (proj1 (ViewFacts.handled_views self e)).
      eexists. split; [reflexivity|]. intros H. discriminate H.
Qed.

Lemma caller_receives_prefix_of_body_witness :
  exists suffix,
    concat
      (writes
         (events
            (_proxy_request "sk-test"
               (constant_network broken_stream_upstream) sample_request
               "GET")))
      ++ suffix = repeat Byte.x61 5000
    /\ (result
          (try_body "sk-test" (constant_network broken_stream_upstream)
             sample_request "GET" None) = inl tt -> suffix = []).
Proof.
  exact (caller_receives_prefix_of_body "sk-test"
           (constant_network broken_stream_upstream) sample_request "GET"
           None eq_refl).
Defined.

(** X8: the streaming loop started at read number [k] on the unread bytes
    [rest], under any pattern of read failures: it relays some chunks, each
    of 1 to 4096 bytes, each read, written and flushed in turn, and then
    makes one more read; the chunks are a prefix of [rest]; the reads of the
    chunks did not fail; the loop returns exactly when the last read found
    the body at its end, all of [rest] having been relayed, and raises
    exactly the exception of the last read otherwise. *)
Theorem stream_loop_under_failures (u : upstream) (k : nat) (rest : bytes) :
  exists chunks suffix,
    events (stream_loop u k rest) = chunk_events chunks ++ [Read (Some 4096)]
    /\ concat chunks ++ suffix = rest
    /\ Forall (fun c => 1 <= length c <= 4096) chunks
    /\ (forall j, j < length chunks -> up_read u (k + j) = None)
    /\ match result (stream_loop u k rest) with
       | inl _ => suffix = [] /\ up_read u (k + length chunks) = None
       | inr e => up_read u (k + length chunks) = Some e
       end.
Proof.
  apply (StreamFacts.stream_loop_trace u (length rest)). apply le_n.
Qed.

(** ** What the [except] clauses leave alone (lines 107-114) *)

(** X9: an exception that is no [Exception] (such as [KeyboardInterrupt])
    raised inside the [try] block is not translated: the handler raises it
    to its caller and sends no error response. *)
Theorem non_exception_propagates (API_KEY : string) (net : network)
  (self : request) (method : string) (body : option bytes) (e : exn) :
  result (read_body self) = inl body ->
  result (try_body API_KEY net self method body) = inr e ->
  isinstance e Exception = false ->
  _proxy_request API_KEY net self method =
    (events (try_body API_KEY net self method body), inr e)
  /\ filter is_send_error (events (_proxy_request API_KEY net self method))
     = [].
Proof.
  intros Hbody Hraise Hnot.
  assert (E : _proxy_request API_KEY net self method =
              (events (try_body API_KEY net self method body), inr e)).
  { rewrite (HandlerFacts.proxy_request_eq _ _ _ _ body Hbody).
    destruct (try_body API_KEY net self method body) as [t r].
    unfold events, result in *. cbn [fst snd] in *. subst r.
    unfold try_except. rewrite RunFacts.except_clauses_eq.
    unfold handled. rewrite Hnot, app_nil_r. reflexivity. }
  split; [exact E|]. rewrite E. unfold events at 1. cbn [fst].
  destruct (ErrorFacts.try_body_raises _ _ _ _ _ _ Hraise) as (t & Ht & Hq).
  rewrite Ht. cbn [filter is_send_error]. clear Ht.
  induction t as [|ev t IH]; [reflexivity|].
  cbn [forallb] in Hq. apply andb_prop in Hq. destruct Hq as [Hev Hq].
  cbn [filter]. unfold quiet in Hev. apply negb_true_iff in Hev.
  apply orb_false_iff in Hev. destruct Hev as [Hev _].
  apply orb_false_iff in Hev. destruct Hev as [Hev _].
  rewrite Hev. exact (IH Hq).
Qed.

Lemma non_exception_propagates_witness :
  _proxy_request "sk-test"
    (constant_network
       (Upstream None (inr (Exn KeyboardInterrupt EmptyString)) []
          (fun _ => None)))
    sample_request "GET" =
  ([Connection ANTHROPIC_HOST ANTHROPIC_PORT 300;
    SendRequest "GET" "/v1/models" None
      (outbound_headers "sk-test" (headers sample_request));
    GetResponse],
   inr (Exn KeyboardInterrupt EmptyString)).
Proof.
  exact (proj1 (non_exception_propagates "sk-test"
                  (constant_network
                     (Upstream None (inr (Exn KeyboardInterrupt EmptyString))
                        [] (fun _ => None)))
                  sample_request "GET" None
                  (Exn KeyboardInterrupt EmptyString)
                  eq_refl eq_refl eq_refl)).
Defined.

(** ** Log lines (lines 40-42) *)

(** X10: every line that a run of the handler writes to stderr is the
    prefix [[anthropic-proxy] ] followed by the request line or by one of
    the status codes 502, 504, 500, and a line feed: neither header values,
    nor bodies, nor the text of an error message are logged. *)
Theorem log_lines_request_line_or_code (API_KEY : string) (net : network)
  (self : request) (method : string) :
  Forall
    (fun line =>
       line = ("[anthropic-proxy] " ++ requestline self ++ LF)%string
       \/ In line
            (map (fun code =>
                    ("[anthropic-proxy] " ++ Py.str_of_nat code ++ LF)%string)
               [502; 504; 500]))
    (logs (events (_proxy_request API_KEY net self method))).
Proof.
  assert (Hh : forall e,
    Forall
      (fun line =>
         line = ("[anthropic-proxy] " ++ requestline self ++ LF)%string
         \/ In line
              (map (fun code =>
                      ("[anthropic-proxy] " ++ Py.str_of_nat code ++ LF)
                        %string)
                 [502; 504; 500]))
      (logs (handled self e))).
  { intros e.
    destruct (ViewFacts.handled_views self e) as (_ & _ & _ & _ & _ & Hl).
    rewrite Hl. destruct (isinstance e Exception); [|constructor].
    constructor; [right|constructor; [left; reflexivity|constructor]].
    apply (in_map
             (fun code =>
                ("[anthropic-proxy] " ++ Py.str_of_nat code ++ LF)%string)).
    apply ErrorFacts.error_status_range. }
  destruct (result (read_body self)) as [body|e] eqn:Hbody.
  - rewrite (proj1 (RunFacts.proxy_request_run _ _ _ _ body Hbody)).
    unfold run_events. cbv zeta. cbn [app logs].
    destruct (up_request _) as [e|]; [apply Hh|].
    cbn [logs].
    destruct (up_response _) as [[status hs]|e]; [|apply Hh].
    cbn [app logs]. constructor; [left; reflexivity|].
    rewrite !ViewFacts.logs_app.
    destruct (ViewFacts.send_header_events_views
                (filter
                   (fun hv =>
                      negb (mem (Py.lower (fst hv)) SKIP_RESPONSE_HEADERS))
                   hs))
      as (Hs & _).
    rewrite Hs. cbn [app logs]. rewrite ?ViewFacts.logs_app.
    destruct (ViewFacts.body_events_views _
                (StreamFacts.relay_body_events_body
                   (net method (path self) body
                      (outbound_headers API_KEY (headers self)))
                   (detectStreaming hs)))
      as (Hb & _).
    rewrite Hb. cbn [app].
    destruct (result (relay_body _ _)) as [x|e]; [constructor|apply Hh].
  - rewrite (RunFacts.proxy_request_no_body _ _ _ _ e Hbody). constructor.
Qed.

(** ** More on the outbound headers (lines 62-70) *)

Module OutboundFacts.
Import Py DictFacts HeaderFacts.

Lemma map_fst_dict_set (d : dict) k v :
  map fst (dict_set d k v) =
  if existsb (String.eqb k) (map fst d) then map fst d else map fst d ++ [k].
Proof.
  induction d as [|[k' v'] d IH]; [reflexivity|].
  cbn [dict_set map fst existsb].
  rewrite (String.eqb_sym k k').
  destruct (k' =? k); cbn [map fst orb]; [reflexivity|].
  rewrite IH. destruct (existsb (String.eqb k) (map fst d)); reflexivity.
Qed.

Lemma dict_set_nodup (d : dict) k v :
  NoDup (map fst d) -> NoDup (map fst (dict_set d k v)).
Proof.
  intros H. rewrite map_fst_dict_set.
  destruct (existsb (String.eqb k) (map fst d)) eqn:E; [exact H|].
  apply NoDup_app; [exact H|constructor; [intros []|constructor]|].
  intros x Hx [Hk|[]]. subst x.
  assert (existsb (String.eqb k) (map fst d) = true); [|congruence].
  apply existsb_exists. exists k. split; [exact Hx|apply String.eqb_refl].
Qed.

Lemma dict_set_head (d : dict) k0 v0 k v :
  k0 <> k ->
  dict_set ((k0, v0) :: d) k v = (k0, v0) :: dict_set d k v.
Proof.
  intros H. cbn [dict_set].
  destruct (k0 =? k) eqn:E; [|reflexivity].
  apply String.eqb_eq in E. contradiction.
Qed.

(** The copy loop keeps the first entry and the uniqueness of the names. *)
Lemma copy_loop_invariant inbound : forall d,
  NoDup (map fst (("Host", ANTHROPIC_HOST) :: d)) ->
  exists d',
    fold_left (copy_step keep_request) inbound (("Host", ANTHROPIC_HOST) :: d)
    = ("Host", ANTHROPIC_HOST) :: d'
    /\ NoDup (map fst (("Host", ANTHROPIC_HOST) :: d')).
Proof.
  induction inbound as [|[header value] inbound IH]; intros d Hd.
  - exists d. split; [reflexivity|exact Hd].
  - cbn [fold_left copy_step].
    destruct (keep_request header) eqn:Hk.
    + assert (Hne : "Host" <> header).
      { intros <-. discriminate Hk. }
      rewrite (dict_set_head d "Host" ANTHROPIC_HOST header value Hne).
      apply IH.
      rewrite <- (dict_set_head d "Host" ANTHROPIC_HOST header value Hne).
      apply dict_set_nodup. exact Hd.
    + apply IH. exact Hd.
Qed.

End OutboundFacts.

(** X1: when line 65 does not inject (no credential is configured, or the
    caller's first credential header has a non-empty value) the mapping sent
    upstream is, under every name, the inbound set minus the skip-set plus
    [Host]; with an empty [API_KEY] this is so for every request. *)
Theorem passthrough_outbound_headers (API_KEY : string)
  (inbound : list (string * string)) :
  (injects API_KEY inbound = false ->
   forall h,
     Py.dict_get (outbound_headers API_KEY inbound) h =
     Py.dict_get (minus_skip_plus_host inbound) h)
  /\ injects EmptyString inbound = false.
Proof.
  split; [|reflexivity].
  intros Hno h.
  rewrite HeaderFacts.outbound_headers_get,
    HeaderFacts.minus_skip_plus_host_get, HeaderFacts.initial_headers_get.
  rewrite Hno. cbn [andb].
  destruct ("Host" =? h) eqn:Eh.
  - apply String.eqb_eq in Eh. subst h. reflexivity.
  - destruct (HeaderFacts.keep_request h);
      [destruct (Py.dict_get (Py.dict_of_items inbound) h)|]; reflexivity.
Qed.

Lemma passthrough_outbound_headers_witness :
  Py.dict_get
    (outbound_headers EmptyString [("Authorization", "Bearer t")])
    "x-api-key" = None.
Proof.
  exact (proj1 (passthrough_outbound_headers EmptyString
                  [("Authorization", "Bearer t")]) eq_refl "x-api-key").
Defined.

(** X2: the mapping sent upstream never holds a name twice (in the same
    spelling), and its first entry is always [Host] with the upstream
    host. *)
Theorem outbound_headers_unique_names (API_KEY : string)
  (inbound : list (string * string)) :
  NoDup (map fst (outbound_headers API_KEY inbound))
  /\ hd_error (outbound_headers API_KEY inbound) =
     Some ("Host", ANTHROPIC_HOST).
Proof.
  rewrite HeaderFacts.outbound_headers_fold.
  unfold HeaderFacts.initial_headers.
  destruct (injects API_KEY inbound).
  - destruct (OutboundFacts.copy_loop_invariant inbound
                [("x-api-key", API_KEY)]) as (d' & E & Hd).
    + repeat constructor; cbn; intuition discriminate.
    + rewrite E. split; [exact Hd|reflexivity].
  - destruct (OutboundFacts.copy_loop_invariant inbound [])
      as (d' & E & Hd).
    + repeat constructor; cbn; intuition.
    + rewrite E. split; [exact Hd|reflexivity].
Qed.

(** ** The request body (lines 47-50 and 73) *)

Module BodyFacts.

Lemma scan_of_uint d : forall acc count,
  Py.scan (Z.of_nat acc) count false (NilEmpty.string_of_uint d) =
  Some (Z.of_nat (Nat.of_uint_acc d acc),
        count + String.length (NilEmpty.string_of_uint d), EmptyString).
Proof.
  induction d; intros acc count;
    cbn [NilEmpty.string_of_uint Nat.of_uint_acc String.length].
  1: { cbn [Py.scan]. rewrite Nat.add_0_r. reflexivity. }
  all: cbn [Py.scan];
    match goal with |- context [Py.digit_of ?c] =>
      let v := eval vm_compute in (Py.digit_of c) in
      change (Py.digit_of c) with v end;
    cbv beta iota;
    match goal with
    | |- Py.scan ?a _ false _ = Some (Z.of_nat (Nat.of_uint_acc _ ?b), _, _) =>
        replace a with (Z.of_nat b) by (rewrite ?Nat.tail_mul_spec; lia)
    end;
    rewrite IHd, Nat.add_succ_r; reflexivity.
Qed.

Lemma to_uint_not_nil n : Nat.to_uint n <> Decimal.Nil.
Proof.
  rewrite <- (DecimalNat.Unsigned.of_to n) at 1.
  rewrite DecimalNat.Unsigned.to_of.
  apply DecimalFacts.unorm_nonnil.
Qed.

(** [int(str(n)) == n], as long as [str(n)] keeps within the limit on the
    number of digits. *)
Lemma int_str_of_nat n :
  String.length (Py.str_of_nat n) <= Py.INT_MAX_STR_DIGITS ->
  Py.int (Py.str_of_nat n) = inl (Z.of_nat n).
Proof.
  unfold Py.str_of_nat.
  pose proof (DecimalNat.Unsigned.of_to n) as Hn.
  pose proof (to_uint_not_nil n) as Hnil.
  destruct (Nat.to_uint n) as [|d|d|d|d|d|d|d|d|d|d] eqn:E; [congruence|..].
  all: unfold NilZero.string_of_uint; intros Hlen;
    match goal with
    | |- Py.int (NilEmpty.string_of_uint ?u) = _ =>
        pose proof (scan_of_uint u 0 0) as Hscan
    end;
    cbn [NilEmpty.string_of_uint String.length Nat.add] in Hscan, Hlen |- *;
    unfold Py.int; cbn [Py.lstrip];
    match goal with |- context [Py.is_space ?c] =>
      change (Py.is_space c) with false end;
    cbv beta iota; unfold Py.unsigned_int; cbv beta iota;
    change (Z.of_nat 0) with 0%Z in Hscan; rewrite Hscan;
    destruct (Nat.ltb_spec Py.INT_MAX_STR_DIGITS
                (S (String.length (NilEmpty.string_of_uint d))));
      [lia|];
    cbn [Nat.eqb Py.lstrip String.eqb];
    unfold Nat.of_uint in Hn; rewrite Hn; reflexivity.
Qed.

Lemma str_of_nat_truthy n : Py.truthy (Py.str_of_nat n) = true.
Proof.
  unfold Py.str_of_nat.
  pose proof (to_uint_not_nil n) as Hnil.
  destruct (Nat.to_uint n); [congruence|..]; reflexivity.
Qed.

Lemma rfile_read_in_range self n :
  (-1 <= n <= SSIZE_MAX)%Z ->
  rfile_read self n =
  if (n =? -1)%Z then ret (rfile self)
  else ret (firstn (Z.to_nat n) (rfile self)).
Proof.
  intros Hn. unfold rfile_read.
  destruct ((n <? - SSIZE_MAX - 1) || (SSIZE_MAX <? n))%Z eqn:E.
  - apply orb_true_iff in E. destruct E as [E|E]; apply Z.ltb_lt in E;
      unfold SSIZE_MAX in *; lia.
  - destruct (Z.ltb_spec n (-1)); [lia|reflexivity].
Qed.

Lemma read_body_declared self n :
  headers_get (headers self) "Content-Length" = Some (Py.str_of_nat n) ->
  String.length (Py.str_of_nat n) <= Py.INT_MAX_STR_DIGITS ->
  (Z.of_nat n <= SSIZE_MAX)%Z ->
  read_body self = ([], inl (Some (firstn n (rfile self)))).
Proof.
  intros Hget Hlen Hmax. unfold read_body. rewrite Hget. cbn [Py.truthy_opt].
  rewrite str_of_nat_truthy, (int_str_of_nat n Hlen).
  rewrite rfile_read_in_range by lia.
  destruct (Z.eqb_spec (Z.of_nat n) (-1)); [lia|].
  rewrite Nat2Z.id. reflexivity.
Qed.

End BodyFacts.

(** X11: a request whose (first) [Content-Length] is the decimal length of
    its payload (a length that fits the 64-bit size of [rfile.read] and the
    digit limit of [int()]) is sent upstream with exactly the payload as
    body, byte for byte, whatever follows the payload on the connection. *)
Theorem declared_length_body_forwarded (API_KEY : string) (net : network)
  (self : request) (method : string) (payload extra : bytes) :
  headers_get (headers self) "Content-Length"
    = Some (Py.str_of_nat (length payload)) ->
  rfile self = payload ++ extra ->
  (Z.of_nat (length payload) <= SSIZE_MAX)%Z ->
  String.length (Py.str_of_nat (length payload)) <= Py.INT_MAX_STR_DIGITS ->
  result (read_body self) = inl (Some payload)
  /\ (exists t,
        events (_proxy_request API_KEY net self method) =
        Connection ANTHROPIC_HOST ANTHROPIC_PORT 300
        :: SendRequest method (path self) (Some payload)
             (outbound_headers API_KEY (headers self))
        :: t).
Proof.
  intros Hget Hrfile Hmax Hlen.
  pose proof (BodyFacts.read_body_declared self _ Hget Hlen Hmax) as Hread.
  rewrite Hrfile, firstn_app, Nat.sub_diag, firstn_all in Hread.
  cbn [firstn] in Hread. rewrite app_nil_r in Hread.
  assert (Hres : result (read_body self) = inl (Some payload)).
  { rewrite Hread. reflexivity. }
  split; [exact Hres|].
  rewrite (proj1 (RunFacts.proxy_request_run API_KEY net self method
                    _ Hres)).
  unfold run_events. cbv zeta. cbn [app]. eexists. reflexivity.
Qed.

Lemma declared_length_body_forwarded_witness :
  result
    (read_body
       (Request "POST /v1/messages HTTP/1.1" "/v1/messages"
          [("Content-Length", "2")] (hi ++ [Byte.x47]))) = inl (Some hi).
Proof.
  refine (proj1 (declared_length_body_forwarded "sk-test"
                   (constant_network json_upstream)
                   (Request "POST /v1/messages HTTP/1.1" "/v1/messages"
                      [("Content-Length", "2")] (hi ++ [Byte.x47]))
                   "POST" hi [Byte.x47] eq_refl eq_refl _ _)).
  - vm_compute. discriminate.
  - vm_compute. lia.
Defined.

(** ** The start-up banner (lines 157-167) *)

Module BannerFacts.

Lemma length_app (a b : string) :
  String.length (a ++ b)%string = String.length a + String.length b.
Proof. induction a as [|c a IH]; cbn; [reflexivity|rewrite IH; reflexivity]. Qed.

Lemma substring_prefix (p s : string) :
  substring 0 (String.length p) (p ++ s)%string = p.
Proof.
  induction p as [|c p IH]; cbn.
  - destruct s; reflexivity.
  - rewrite IH. reflexivity.
Qed.

Lemma length_substring m : forall s,
  String.length (substring 0 m s) <= m.
Proof.
  induction m as [|m IH]; intros [|c s]; cbn; try lia.
  specialize (IH s). lia.
Qed.

Lemma nonempty_length (s : string) : s <> EmptyString -> 1 <= String.length s.
Proof. destruct s; [congruence|cbn; lia]. Qed.

End BannerFacts.

(** X12: the key preview printed at start-up shows at most the first 12
    characters of the credential: a credential of up to 12 characters is
    shown as [***], a longer one as its first 12 characters followed by
    [...], whatever comes after them; the preview is never longer than 15
    characters. *)
Theorem key_preview_reveals_prefix_only :
  (forall k, String.length k <= 12 -> key_preview k = "***")
  /\ (forall p s, String.length p = 12 -> s <> EmptyString ->
        key_preview (p ++ s)%string = (p ++ "...")%string
        /\ injection_banner (p ++ s)%string =
           ("[anthropic-proxy] API key injection enabled: " ++ p ++ "...")%string)
  /\ (forall k, String.length (key_preview k) <= 15).
Proof.
  split; [|split].
  - intros k Hk. unfold key_preview.
    destruct (Nat.ltb_spec 12 (String.length k)); [lia|reflexivity].
  - intros p s Hp Hs.
    assert (E : key_preview (p ++ s)%string = (p ++ "...")%string).
    { unfold key_preview. rewrite BannerFacts.length_app.
      pose proof (BannerFacts.nonempty_length s Hs).
      destruct (Nat.ltb_spec 12 (String.length p + String.length s)); [|lia].
      rewrite <- Hp at 1. rewrite BannerFacts.substring_prefix.
      reflexivity. }
    split; [exact E|].
    unfold injection_banner. rewrite E.
    destruct p; [discriminate Hp|reflexivity].
  - intros k. unfold key_preview.
    destruct (Nat.ltb 12 (String.length k)); [|cbn; lia].
    rewrite BannerFacts.length_app.
    pose proof (BannerFacts.length_substring 12 k). cbn [String.length]. lia.
Qed.

Lemma key_preview_reveals_prefix_only_witness :
  key_preview "short-key" = "***"
  /\ key_preview ("sk-ant-api03" ++ "-the-secret-part")%string = "sk-ant-api03...".
Proof.
  split.
  - apply (proj1 key_preview_reveals_prefix_only). cbn. lia.
  - apply (proj1 (proj2 key_preview_reveals_prefix_only)
             "sk-ant-api03" "-the-secret-part").
    + reflexivity.
    + discriminate.
Defined.

(** ** The server thread (lines 145-153) *)

Module ThreadFacts.

(** What reading the request body raises is an [Exception]: the
    [ValueError] of [int()] or of [rfile.read], or its [OverflowError]. *)
Lemma read_body_raises self e :
  result (read_body self) = inr e -> isinstance e Exception = true.
Proof.
  unfold read_body, rfile_read, result.
  destruct (headers_get (headers self) "Content-Length") as [s|];
    cbn [Py.truthy_opt]; [|discriminate].
  destruct (Py.truthy s); [|discriminate].
  destruct (Py.int s) as [n|message].
  - destruct ((n <? - SSIZE_MAX - 1) || (SSIZE_MAX <? n))%Z;
      [intros H; injection H as <-; reflexivity|].
    destruct (n <? -1)%Z; [intros H; injection H as <-; reflexivity|].
    destruct (n =? -1)%Z; discriminate.
  - intros H. injection H as <-. reflexivity.
Qed.

Lemma thread_events (finish_request : M unit) :
  fst (_process_request_thread finish_request) =
  map Handler (events finish_request)
  ++ match result finish_request with
     | inr e => if isinstance e Exception then [HandleError] else []
     | inl _ => []
     end
  ++ [ShutdownRequest].
Proof.
  destruct finish_request as [t [[]|e]]; cbn; [reflexivity|].
  destruct (isinstance e Exception); reflexivity.
Qed.

End ThreadFacts.

(** X13: whatever [finish_request] does, the thread function calls
    [shutdown_request] once, as its last action; and when the handler fails
    to read the request body, [handle_error] is called and then
    [shutdown_request], the handler having done nothing, and the thread
    function returns. *)
Theorem thread_shuts_down_and_reports_request_failures :
  (forall finish_request : M unit,
     exists t,
       fst (_process_request_thread finish_request) = t ++ [ShutdownRequest]
       /\ ~ In ShutdownRequest t)
  /\ (forall API_KEY net self method e,
        result (read_body self) = inr e ->
        _process_request_thread (_proxy_request API_KEY net self method) =
        ([HandleError; ShutdownRequest], inl tt)).
Proof.
  split.
  - intros finish_request. rewrite ThreadFacts.thread_events.
    eexists. rewrite app_assoc. split; [reflexivity|].
    intros H. apply in_app_or in H. destruct H as [H|H].
    + apply in_map_iff in H. destruct H as (ev & H & _). discriminate H.
    + destruct (result finish_request) as [x|e]; [exact H|].
      destruct (isinstance e Exception); [|exact H].
      destruct H as [H|[]]. discriminate H.
  - intros API_KEY net self method e Hbody.
    rewrite (RunFacts.proxy_request_no_body _ _ _ _ e Hbody).
    unfold _process_request_thread.
    rewrite (ThreadFacts.read_body_raises self e Hbody). reflexivity.
Qed.

Lemma thread_shuts_down_and_reports_request_failures_witness :
  _process_request_thread
    (_proxy_request "sk-test" (constant_network json_upstream)
       (Request "POST /v1/messages HTTP/1.1" "/v1/messages"
          [("Content-Length", "abc")] hi) "POST") =
  ([HandleError; ShutdownRequest], inl tt).
Proof.
  apply (proj2 thread_shuts_down_and_reports_request_failures "sk-test"
           (constant_network json_upstream)
           (Request "POST /v1/messages HTTP/1.1" "/v1/messages"
              [("Content-Length", "abc")] hi) "POST"
           (Exn ValueError "invalid literal for int() with base 10: 'abc'")).
  reflexivity.
Defined.

(** ** Stream detection (lines 84-88) *)

Module DetectFacts.

Lemma prefix_iff p : forall s,
  Py.prefix p s = true <-> exists post, s = (p ++ post)%string.
Proof.
  induction p as [|a p IH]; intros s.
  - split; [intros _; exists s; reflexivity|reflexivity].
  - destruct s as [|b s]; cbn [Py.prefix].
    + split; [discriminate|intros [post H]; discriminate H].
    + split.
      * intros H. apply andb_prop in H. destruct H as [Hab Hp].
        apply Ascii.eqb_eq in Hab. subst b.
        apply IH in Hp. destruct Hp as [post ->]. exists post. reflexivity.
      * intros [post H]. cbn in H. injection H as -> ->.
        rewrite Ascii.eqb_refl. cbn [andb]. apply IH. exists post.
        reflexivity.
Qed.

Lemma contains_eq sub s :
  Py.contains sub s =
  Py.prefix sub s
  || match s with
     | EmptyString => false
     | String _ s' => Py.contains sub s'
     end.
Proof. destruct s; reflexivity. Qed.

End DetectFacts.

(** X14: the test of line 86, [marker in value], holds exactly when the
    value is some text, then the marker, then some text; so a content type
    with parameters ([text/event-stream; charset=utf-8]) is a stream, and
    the comparison is sensitive to case. *)
Theorem contains_iff_substring (sub s : string) :
  Py.contains sub s = true <->
  exists pre post, s = (pre ++ sub ++ post)%string.
Proof.
  split.
  - induction s as [|c s IH]; rewrite DetectFacts.contains_eq; intros H.
    + rewrite orb_false_r in H. apply DetectFacts.prefix_iff in H.
      destruct H as [post H]. exists EmptyString, post. exact H.
    + apply orb_prop in H. destruct H as [H|H].
      * apply DetectFacts.prefix_iff in H. destruct H as [post H].
        exists EmptyString, post. exact H.
      * destruct (IH H) as (pre & post & ->).
        exists (String c pre), post. reflexivity.
  - intros (pre & post & ->). induction pre as [|c pre IH].
    + rewrite DetectFacts.contains_eq.
      assert (Hp : Py.prefix sub (sub ++ post)%string = true).
      { apply DetectFacts.prefix_iff. exists post. reflexivity. }
      cbn [append]. rewrite Hp. reflexivity.
    + rewrite DetectFacts.contains_eq. cbn [append]. rewrite IH.
      apply orb_true_r.
Qed.

(** X15: the mode of the relay does not depend on the letter case of the
    response header names: two header lists that agree on the values and,
    up to case, on the names give the same flag. *)
Theorem detectStreaming_ignores_name_case (hs hs' : list (string * string)) :
  Forall2
    (fun hv hv' =>
       Py.lower (fst hv) = Py.lower (fst hv') /\ snd hv = snd hv')
    hs hs' ->
  detectStreaming hs = detectStreaming hs'
  /\ result (forward_headers hs false) = result (forward_headers hs' false).
Proof.
  intros H.
  assert (E : detectStreaming hs = detectStreaming hs').
  { induction H as [|hv hv' hs hs' [Hn Hv] _ IH]; [reflexivity|].
    cbn [detectStreaming existsb]. fold (detectStreaming hs).
    fold (detectStreaming hs'). rewrite Hn, Hv, IH. reflexivity. }
  split; [exact E|].
  rewrite !RelayFacts.forward_headers_eq. cbn [result snd orb].
  rewrite E. reflexivity.
Qed.

Lemma detectStreaming_ignores_name_case_witness :
  detectStreaming [("CONTENT-TYPE", "text/event-stream; charset=utf-8")] =
  detectStreaming [("content-type", "text/event-stream; charset=utf-8")].
Proof.
  refine (proj1 (detectStreaming_ignores_name_case
                   [("CONTENT-TYPE", "text/event-stream; charset=utf-8")]
                   [("content-type", "text/event-stream; charset=utf-8")]
                   _)).
  repeat constructor.
Defined.

(** ** Lengths out of range (lines 47-50) *)

(** X16: a [Content-Length] that [int()] accepts is passed to [rfile.read]
    as it is.  From -2 down to the least 64-bit number the read raises
    [ValueError], outside the 64-bit range [OverflowError], in both cases
    before the [try] block, the handler having done nothing visible; at -1
    the read takes every byte up to the end of the connection as the
    body. *)
Theorem content_length_out_of_range (self : request) (v : string) (n : Z) :
  headers_get (headers self) "Content-Length" = Some v ->
  Py.int v = inl n ->
  ((- SSIZE_MAX - 1 <= n < -1)%Z ->
   forall API_KEY net method,
     _proxy_request API_KEY net self method =
     ([], inr (Exn ValueError "read length must be non-negative or -1")))
  /\ ((n < - SSIZE_MAX - 1)%Z \/ (SSIZE_MAX < n)%Z ->
      forall API_KEY net method,
        _proxy_request API_KEY net self method =
        ([], inr (Exn OverflowError
                    "cannot fit 'int' into an index-sized integer")))
  /\ (n = (-1)%Z -> result (read_body self) = inl (Some (rfile self))).
Proof.
  intros Hget Hint.
  assert (Ht : Py.truthy v = true).
  { destruct v; [discriminate Hint|reflexivity]. }
  assert (E : read_body self =
              (data <- rfile_read self n ;; ret (Some data))).
  { unfold read_body. rewrite Hget. cbn [Py.truthy_opt].
    rewrite Ht, Hint. reflexivity. }
  split; [|split].
  - intros Hn API_KEY net method.
    unfold _proxy_request. rewrite E. unfold rfile_read.
    destruct ((n <? - SSIZE_MAX - 1) || (SSIZE_MAX <? n))%Z eqn:Ho.
    + apply orb_true_iff in Ho. destruct Ho as [Ho|Ho]; apply Z.ltb_lt in Ho;
        unfold SSIZE_MAX in *; lia.
    + destruct (Z.ltb_spec n (-1)); [reflexivity|lia].
  - intros Hn API_KEY net method.
    unfold _proxy_request. rewrite E. unfold rfile_read.
    destruct ((n <? - SSIZE_MAX - 1) || (SSIZE_MAX <? n))%Z eqn:Ho;
      [reflexivity|].
    apply orb_false_iff in Ho. destruct Ho as [Ho1 Ho2].
    apply Z.ltb_ge in Ho1. apply Z.ltb_ge in Ho2. lia.
  - intros ->. rewrite E. reflexivity.
Qed.

Lemma content_length_out_of_range_witness :
  _proxy_request "sk-test" (constant_network json_upstream)
    (Request "POST /v1/messages HTTP/1.1" "/v1/messages"
       [("Content-Length", "-5")] hi) "POST" =
  ([], inr (Exn ValueError "read length must be non-negative or -1"))
  /\ _proxy_request "sk-test" (constant_network json_upstream)
       (Request "POST /v1/messages HTTP/1.1" "/v1/messages"
          [("Content-Length", "9223372036854775808")] hi) "POST" =
     ([], inr (Exn OverflowError
                 "cannot fit 'int' into an index-sized integer")).
Proof.
  split.
  - refine (proj1 (content_length_out_of_range
                     (Request "POST /v1/messages HTTP/1.1" "/v1/messages"
                        [("Content-Length", "-5")] hi) "-5" (-5)%Z
                     eq_refl eq_refl) _ "sk-test"
              (constant_network json_upstream) "POST").
    unfold SSIZE_MAX. lia.
  - refine (proj1 (proj2 (content_length_out_of_range
                     (Request "POST /v1/messages HTTP/1.1" "/v1/messages"
                        [("Content-Length", "9223372036854775808")] hi)
                     "9223372036854775808" 9223372036854775808%Z
                     eq_refl eq_refl)) _ "sk-test"
              (constant_network json_upstream) "POST").
    right. reflexivity.
Defined.
